(** * SentraX: asset / vulnerability link lifecycle

    Shallow embedding of the link routes, the simulated-scan route and the
    dashboard queries of the SentraX server
    ([src/unnamed/part_008] lines 1-418, [src/server/routes/dashboard.ts],
    [src/server/routes/vulnerabilities.ts]), over a model of the Postgres
    tables declared in [src/shared/schema.ts].

    The relational store is modelled as three tables kept as lists in
    insertion order, plus the serial counter of the link table.  Every
    store call is a computation in a small state-and-error monad: a failing
    call (a constraint violation, an unstorable value) raises a [DbErr] and
    keeps the changes committed so far, as the route code has no
    transaction around its calls.  The [try { ... } catch] of a route is
    [try_catch].  A concurrent request running between two awaited store
    calls of a route is an explicit state transformer [interfere]. *)

From Stdlib Require Import ZArith List String Bool Lia Sorting.Sorted Sorting.Permutation.
Import ListNotations.
Open Scope Z_scope.

(** ** Enumerations of [schema.ts] *)

Inductive AssetType := Server | Workstation | NetworkDevice | IotDevice | OtherType.

(** [vulnerabilitySeverityEnum] *)
Inductive Severity := Critical | High | Medium | Low | Informational.

Definition vulnerabilitySeverityEnum_enumValues : list Severity :=
  [Critical; High; Medium; Low; Informational].

Definition severity_eqb (a b : Severity) : bool :=
  match a, b with
  | Critical, Critical | High, High | Medium, Medium | Low, Low
  | Informational, Informational => true
  | _, _ => false
  end.

(** [vulnerabilityStatusEnum] *)
Inductive Status := Open | Remediated | Ignored | PendingVerification | Archived.

Definition status_to_string (s : Status) : string :=
  match s with
  | Open => "open" | Remediated => "remediated" | Ignored => "ignored"
  | PendingVerification => "pending_verification" | Archived => "archived"
  end.

Definition vulnerabilityStatusEnum_enumValues : list string :=
  map status_to_string [Open; Remediated; Ignored; PendingVerification; Archived].

(** the cast of a text value to the enum type done by Postgres *)
Definition status_of_string (s : string) : option Status :=
  if String.eqb s "open" then Some Open
  else if String.eqb s "remediated" then Some Remediated
  else if String.eqb s "ignored" then Some Ignored
  else if String.eqb s "pending_verification" then Some PendingVerification
  else if String.eqb s "archived" then Some Archived
  else None.

Definition status_eqb (a b : Status) : bool :=
  String.eqb (status_to_string a) (status_to_string b).

(** [Object.values(vulnerabilityStatusEnum.enumValues).includes(status)] *)
Definition includes (xs : list string) (x : string) : bool :=
  existsb (String.eqb x) xs.

(** JavaScript truthiness of a string body field ([undefined] is [None]) *)
Definition truthy_str (o : option string) : bool :=
  match o with None => false | Some s => negb (String.eqb s "") end.

(** ** Rows of the three tables *)

(** Timestamps are Z (milliseconds); a JavaScript [Date] built from a
    request value is [option Z], [None] being an [Invalid Date]. *)
Definition Timestamp := Z.
Definition JsDate := option Timestamp.

Record Asset := mkAsset {
  a_id : Z;
  a_name : string;
  a_type : AssetType;
  a_ipAddress : string;
  a_macAddress : option string;
  a_operatingSystem : option string;
  a_description : option string;
  a_lastScannedAt : option Timestamp;
  a_createdAt : Timestamp;
  a_updatedAt : Timestamp
}.

Record Vulnerability := mkVuln {
  v_id : Z;
  v_name : string;
  v_description : string;
  v_severity : Severity;
  v_cvssScore : option Z;  (** decimal(3,1), scaled by 10 *)
  v_source : option string;
  v_references : option (list string);
  v_createdAt : Timestamp;
  v_updatedAt : Timestamp
}.

(** a row of [assets_vulnerabilities] *)
Record Link := mkLink {
  l_id : Z;
  l_assetId : Z;
  l_vulnerabilityId : Z;
  l_status : Status;
  l_lastSeenAt : Timestamp;
  l_details : option string;
  l_remediationNotes : option string;
  l_updatedAt : Timestamp
}.

Record DB := mkDB {
  assets : list Asset;
  vulnerabilities : list Vulnerability;
  assets_vulnerabilities : list Link;
  link_serial : Z  (** next value of the [serial] id of the link table *)
}.

(** Errors raised by store calls; [UniqueViolation c] is Postgres code
    '23505' on constraint [c]. *)
Inductive DbErr :=
| UniqueViolation (constraint : string)
| ForeignKeyViolation
| InvalidEnumValue
| InvalidDate
| NumericValueOutOfRange (** '22003': an [integer] parameter outside int4 *).

Definition asset_vulnerability_unique_idx : string := "asset_vulnerability_unique_idx".

(** ** A state-and-error monad for store calls *)

Inductive Res (A : Type) := Ok (a : A) | Err (e : DbErr).
Arguments Ok {A} a.
Arguments Err {A} e.

Definition M (A : Type) := DB -> Res A * DB.

Definition ret {A} (a : A) : M A := fun s => (Ok a, s).
Definition bind {A B} (m : M A) (k : A -> M B) : M B :=
  fun s => match m s with
           | (Ok a, s') => k a s'
           | (Err e, s') => (Err e, s')
           end.
Definition raise {A} (e : DbErr) : M A := fun s => (Err e, s).
Definition read {A} (f : DB -> A) : M A := fun s => (Ok (f s), s).
(** another request's effect on the shared store between two awaits *)
Definition interleave (interfere : DB -> DB) : M unit :=
  fun s => (Ok tt, interfere s).

Notation "x <- m ;; k" := (bind m (fun x => k))
  (at level 61, m at next level, right associativity).

(** [try { body } catch (error) { handler }] *)
Definition try_catch {A} (body : M A) (handler : DbErr -> A) : M A :=
  fun s => match body s with
           | (Ok a, s') => (Ok a, s')
           | (Err e, s') => (Ok (handler e), s')
           end.

(** ** Store calls (drizzle queries against the tables) *)

Definition find_asset (id : Z) (s : DB) : option Asset :=
  find (fun a => a_id a =? id) (assets s).

Definition find_vuln (id : Z) (s : DB) : option Vulnerability :=
  find (fun v => v_id v =? id) (vulnerabilities s).

Definition is_pair (assetId vulnerabilityId : Z) (l : Link) : bool :=
  (l_assetId l =? assetId) && (l_vulnerabilityId l =? vulnerabilityId).

(** [findFirst({ where: and(eq(assetId, a), eq(vulnerabilityId, v)) })] *)
Definition find_link_pair (assetId vulnerabilityId : Z) (s : DB) : option Link :=
  find (is_pair assetId vulnerabilityId) (assets_vulnerabilities s).

Definition find_link_by_id (id : Z) (s : DB) : option Link :=
  find (fun l => l_id l =? id) (assets_vulnerabilities s).

(** values of an [insert(assetVulnerabilitiesTable).values(...)] *)
Record LinkInsert := mkLinkInsert {
  i_assetId : Z;
  i_vulnerabilityId : Z;
  i_status : string;
  i_details : option string;
  i_remediationNotes : option string;
  i_lastSeenAt : JsDate
}.

(** An insert: drizzle serialises the [Date] first (an [Invalid Date]
    throws), Postgres casts the status text to the enum, draws the next
    serial id (consumed even when a later check fails), then checks the
    unique index on (asset_id, vulnerability_id) and the two foreign keys. *)
Definition insert_link (v : LinkInsert) (now : Timestamp) : M Link :=
  fun s =>
    match i_lastSeenAt v with
    | None => (Err InvalidDate, s)
    | Some seen =>
      match status_of_string (i_status v) with
      | None => (Err InvalidEnumValue, s)
      | Some st =>
        let id := link_serial s in
        let s1 := mkDB (assets s) (vulnerabilities s) (assets_vulnerabilities s) (id + 1) in
        if existsb (is_pair (i_assetId v) (i_vulnerabilityId v)) (assets_vulnerabilities s)
        then (Err (UniqueViolation asset_vulnerability_unique_idx), s1)
        else match find_asset (i_assetId v) s, find_vuln (i_vulnerabilityId v) s with
             | Some _, Some _ =>
               let l := mkLink id (i_assetId v) (i_vulnerabilityId v) st seen
                          (i_details v) (i_remediationNotes v) now in
               (Ok l, mkDB (assets s) (vulnerabilities s)
                           (assets_vulnerabilities s ++ [l]) (id + 1))
             | _, _ => (Err ForeignKeyViolation, s1)
             end
      end
    end.

(** the object passed to [.set(...)] of an update of the link table;
    [None] is an absent key *)
Record LinkPatch := mkLinkPatch {
  p_status : option string;
  p_details : option (option string);
  p_remediationNotes : option (option string);
  p_lastSeenAt : option JsDate
}.

Definition apply_patch (st : option Status) (seen : option Timestamp)
    (p : LinkPatch) (now : Timestamp) (l : Link) : Link :=
  mkLink (l_id l) (l_assetId l) (l_vulnerabilityId l)
    (match st with Some x => x | None => l_status l end)
    (match seen with Some x => x | None => l_lastSeenAt l end)
    (match p_details p with Some x => x | None => l_details l end)
    (match p_remediationNotes p with Some x => x | None => l_remediationNotes l end)
    now (** [updatedAt]: [$onUpdate(() => new Date())] *).

(** [update(assetVulnerabilitiesTable).set(p).where(w).returning()]:
    the values are serialised and cast first, then every matching row is
    rewritten; the rewritten rows are returned. *)
Definition update_links (w : Link -> bool) (p : LinkPatch) (now : Timestamp) : M (list Link) :=
  fun s =>
    let seen := match p_lastSeenAt p with
                | None => Ok None
                | Some None => Err InvalidDate
                | Some (Some t) => Ok (Some t)
                end in
    let st := match p_status p with
              | None => Ok None
              | Some x => match status_of_string x with
                          | Some y => Ok (Some y)
                          | None => Err InvalidEnumValue
                          end
              end in
    match seen, st with
    | Err e, _ => (Err e, s)
    | _, Err e => (Err e, s)
    | Ok seen', Ok st' =>
      let upd l := if w l then apply_patch st' seen' p now l else l in
      (Ok (map (apply_patch st' seen' p now) (filter w (assets_vulnerabilities s))),
       mkDB (assets s) (vulnerabilities s) (map upd (assets_vulnerabilities s)) (link_serial s))
    end.

(** [delete(assetVulnerabilitiesTable).where(w).returning({ id })] *)
Definition delete_links (w : Link -> bool) : M (list Z) :=
  fun s =>
    (Ok (map l_id (filter w (assets_vulnerabilities s))),
     mkDB (assets s) (vulnerabilities s)
          (filter (fun l => negb (w l)) (assets_vulnerabilities s)) (link_serial s)).

(** [delete(assetsTable).where(eq(id, a)).returning({ id })]: the foreign
    key [onDelete: 'cascade'] of [assets_vulnerabilities.asset_id] removes
    the links of every deleted asset in the same statement. *)
Definition delete_assets (id : Z) : M (list Z) :=
  fun s =>
    let gone := filter (fun a => a_id a =? id) (assets s) in
    let gone_ids := map a_id gone in
    (Ok gone_ids,
     mkDB (filter (fun a => negb (a_id a =? id)) (assets s)) (vulnerabilities s)
          (filter (fun l => negb (existsb (Z.eqb (l_assetId l)) gone_ids))
                  (assets_vulnerabilities s))
          (link_serial s)).

(** the same for [vulnerabilitiesTable] and [vulnerability_id] *)
Definition delete_vulnerabilities (id : Z) : M (list Z) :=
  fun s =>
    let gone := filter (fun v => v_id v =? id) (vulnerabilities s) in
    let gone_ids := map v_id gone in
    (Ok gone_ids,
     mkDB (assets s) (filter (fun v => negb (v_id v =? id)) (vulnerabilities s))
          (filter (fun l => negb (existsb (Z.eqb (l_vulnerabilityId l)) gone_ids))
                  (assets_vulnerabilities s))
          (link_serial s)).

(** Postgres converts a parameter compared with an [integer] column to
    int4 before the statement runs; a [parseInt] result outside
    [-2147483648, 2147483647] raises '22003'. Every id a table holds is an
    int4, so a statement that matched a row had in-range parameters: the
    conversion is observable only where no row matched, and [int4_guard ids k]
    models it there, running [k] when the parameters [ids] are in range. *)
Definition int4_ok (z : Z) : bool := (-2147483648 <=? z) && (z <=? 2147483647).

Definition int4_guard {A} (ids : list Z) (k : M A) : M A :=
  fun s => if forallb int4_ok ids then k s else (Err NumericValueOutOfRange, s).

(** ** Responses *)

(** one row of [GET /api/dashboard/recent-vulnerabilities]; a column of a
    left-joined table that found no row is [None] ([null]) *)
Record RecentItem := mkRecentItem {
  r_joinId : Z;
  r_vulnerabilityName : option string;
  r_vulnerabilitySeverity : option Severity;
  r_vulnerabilitySource : option string;
  r_assetName : option string;
  r_assetIpAddress : option string;
  r_lastSeenOrUpdatedAt : Timestamp
}.

(** body of [GET /api/dashboard/statistics]; the JavaScript object
    [openVulnerabilitiesBySeverity] is kept as its entries in key order *)
Record Statistics := mkStatistics {
  totalAssets : Z;
  totalVulnerabilities : Z;
  totalOpenVulnerabilityInstances : Z;
  openVulnerabilitiesBySeverity : list (Severity * Z)
}.

Inductive Body :=
| Message (message : string)
| ConflictBody (message : string) (link : option Link)
| LinkRow (link : Link)
| Unlinked (message : string) (linkId : Z)
| AssetDeleted (message : string) (assetId : Z)
| VulnerabilityDeleted (message : string) (vulnerabilityId : Z)
| ScanResult (message : string) (assetId newlyLinked updatedLinks vulnerabilitiesProcessed : Z)
| StatisticsBody (stats : Statistics)
| RecentVulnerabilities (rows : list RecentItem).

Record Response := mkResponse { code : Z; body : Body }.

Definition reply (c : Z) (b : Body) : M Response := ret (mkResponse c b).

(** ** Link routes ([part_008], lines 60-225) *)

(** request body of [POST /:assetId/vulnerabilities]; [b_vulnerabilityId]
    is [None] when the field is falsy or does not parse as an integer,
    [b_lastSeenAt] is [None] when the field is falsy *)
Record CreateLinkBody := mkCreateLinkBody {
  b_vulnerabilityId : option Z;
  b_status : option string;
  b_details : option string;
  b_remediationNotes : option string;
  b_lastSeenAt : option JsDate
}.

(** [POST /api/assets/:assetId/vulnerabilities]; [assetId] is the
    [parseInt] of the path parameter ([None] for [NaN]), [now] the clock,
    and [interfere] what concurrent requests commit between the existence
    check and the insert *)
Definition create_link (interfere : DB -> DB) (now : Timestamp)
    (assetId : option Z) (b : CreateLinkBody) : M Response :=
  match assetId with
  | None => reply 400 (Message "Invalid asset ID format.")
  | Some aid =>
  match b_vulnerabilityId b with
  | None => reply 400 (Message "Valid vulnerabilityId is required in the body.")
  | Some vid =>
  if truthy_str (b_status b)
     && negb (includes vulnerabilityStatusEnum_enumValues
                       (match b_status b with Some x => x | None => "" end))
  then reply 400 (Message "Invalid status. Must be one of: open, remediated, ignored, pending_verification, archived")
  else
  try_catch
    (assetExists <- read (find_asset aid) ;;
     match assetExists with
     | None => int4_guard [aid] (reply 404 (Message "Asset not found."))
     | Some _ =>
     vulnerabilityExists <- read (find_vuln vid) ;;
     match vulnerabilityExists with
     | None => int4_guard [vid] (reply 404 (Message "Vulnerability not found."))
     | Some _ =>
     existingLink <- read (find_link_pair aid vid) ;;
     match existingLink with
     | Some l => reply 409 (ConflictBody "This vulnerability is already linked to this asset." (Some l))
     | None =>
       _ <- interleave interfere ;;
       newLink <- insert_link
         (mkLinkInsert aid vid
            (if truthy_str (b_status b)
             then match b_status b with Some x => x | None => "" end
             else "open")
            (b_details b) (b_remediationNotes b)
            (match b_lastSeenAt b with Some d => d | None => Some now end)) now ;;
       reply 201 (LinkRow newLink)
     end end end)
    (fun e => match e with
              | UniqueViolation c =>
                  if String.eqb c asset_vulnerability_unique_idx
                  then mkResponse 409 (ConflictBody "This vulnerability is already linked to this asset (DB constraint)." None)
                  else mkResponse 500 (Message "Internal server error.")
              | _ => mkResponse 500 (Message "Internal server error.")
              end)
  end end.

(** request body of [PUT /:assetId/vulnerabilities/:joinId]: each field is
    [None] when [undefined]; [details] and [remediationNotes] may be [null] *)
Record UpdateLinkBody := mkUpdateLinkBody {
  u_status : option string;
  u_details : option (option string);
  u_remediationNotes : option (option string);
  u_lastSeenAt : option JsDate
}.

Definition patch_is_empty (p : LinkPatch) : bool :=
  match p_status p, p_details p, p_remediationNotes p, p_lastSeenAt p with
  | None, None, None, None => true
  | _, _, _, _ => false
  end.

Definition is_scoped (joinId assetId : Z) (l : Link) : bool :=
  (l_id l =? joinId) && (l_assetId l =? assetId).

(** [PUT /api/assets/:assetId/vulnerabilities/:joinId] *)
Definition update_link (now : Timestamp) (assetId joinId : option Z)
    (b : UpdateLinkBody) : M Response :=
  match assetId, joinId with
  | Some aid, Some jid =>
    if truthy_str (u_status b)
       && negb (includes vulnerabilityStatusEnum_enumValues
                         (match u_status b with Some x => x | None => "" end))
    then reply 400 (Message "Invalid status. Must be one of: open, remediated, ignored, pending_verification, archived")
    else
    let updateData := mkLinkPatch (u_status b) (u_details b)
                                  (u_remediationNotes b) (u_lastSeenAt b) in
    if patch_is_empty updateData
    then reply 400 (Message "No fields provided for update.")
    else
    try_catch
      (updated <- update_links (is_scoped jid aid) updateData now ;;
       match updated with
       | [] => int4_guard [jid; aid] (reply 404 (Message "Asset-vulnerability link not found or no changes made."))
       | l :: _ => reply 200 (LinkRow l)
       end)
      (fun _ => mkResponse 500 (Message "Internal server error."))
  | _, _ => reply 400 (Message "Invalid asset ID or join ID format.")
  end.

(** [DELETE /api/assets/:assetId/vulnerabilities/:joinId] *)
Definition delete_link (assetId joinId : option Z) : M Response :=
  match assetId, joinId with
  | Some aid, Some jid =>
    try_catch
      (deleted <- delete_links (is_scoped jid aid) ;;
       match deleted with
       | [] => int4_guard [jid; aid] (reply 404 (Message "Asset-vulnerability link not found."))
       | id :: _ => reply 200 (Unlinked "Vulnerability unlinked from asset successfully." id)
       end)
      (fun _ => mkResponse 500 (Message "Internal server error."))
  | _, _ => reply 400 (Message "Invalid asset ID or join ID format.")
  end.

(** [DELETE /api/assets/:assetId] ([part_008], lines 309-331) *)
Definition delete_asset (assetId : option Z) : M Response :=
  match assetId with
  | None => reply 400 (Message "Invalid asset ID format.")
  | Some aid =>
    try_catch
      (deleted <- delete_assets aid ;;
       match deleted with
       | [] => int4_guard [aid] (reply 404 (Message "Asset not found."))
       | id :: _ => reply 200 (AssetDeleted "Asset deleted successfully." id)
       end)
      (fun _ => mkResponse 500 (Message "Internal server error while deleting asset."))
  end.

(** [DELETE /api/vulnerabilities/:vulnerabilityId]
    ([vulnerabilities.ts], lines 156-179) *)
Definition delete_vulnerability (vulnerabilityId : option Z) : M Response :=
  match vulnerabilityId with
  | None => reply 400 (Message "Invalid vulnerability ID format.")
  | Some vid =>
    try_catch
      (deleted <- delete_vulnerabilities vid ;;
       match deleted with
       | [] => int4_guard [vid] (reply 404 (Message "Vulnerability not found."))
       | id :: _ => reply 200 (VulnerabilityDeleted "Vulnerability deleted successfully." id)
       end)
      (fun _ => mkResponse 500 (Message "Internal server error while deleting vulnerability."))
  end.

(** ** [ORDER BY key DESC]: an insertion sort on the key *)

Fixpoint insert_desc {A} (key : A -> Z) (x : A) (xs : list A) : list A :=
  match xs with
  | [] => [x]
  | y :: ys => if key y <? key x then x :: y :: ys else y :: insert_desc key x ys
  end.

Fixpoint sort_desc {A} (key : A -> Z) (xs : list A) : list A :=
  match xs with
  | [] => []
  | x :: xs' => insert_desc key x (sort_desc key xs')
  end.

(** ** The simulated scan ([part_008], lines 333-415) *)

(** [findMany({ orderBy: [desc(vulnerabilitiesTable.id)], limit: 5 })] *)
Definition scan_candidates (s : DB) : list Vulnerability :=
  firstn 5 (sort_desc v_id (vulnerabilities s)).

(** the [for (const vuln of vulnerabilitiesToScan)] loop, threading
    [newlyLinked] and [updatedLinks]; [interfere v] is what concurrent
    requests commit between the existence check for candidate [v] and its
    insert *)
Fixpoint scan_loop (interfere : Z -> DB -> DB) (now : Timestamp) (aid : Z)
    (vs : list Vulnerability) (newlyLinked updatedLinks : Z) : M (Z * Z) :=
  match vs with
  | [] => ret (newlyLinked, updatedLinks)
  | vuln :: rest =>
    existingLink <- read (find_link_pair aid (v_id vuln)) ;;
    match existingLink with
    | Some l =>
      _ <- update_links (fun x => l_id x =? l_id l)
             (mkLinkPatch (if status_eqb (l_status l) Open then None else Some "open"%string)
                          None None (Some (Some now))) now ;;
      scan_loop interfere now aid rest newlyLinked (updatedLinks + 1)
    | None =>
      _ <- interleave (interfere (v_id vuln)) ;;
      _ <- insert_link (mkLinkInsert aid (v_id vuln) "open" None None (Some now)) now ;;
      scan_loop interfere now aid rest (newlyLinked + 1) updatedLinks
    end
  end.

Definition no_vulnerabilities_message : string :=
  "Simulated scan completed. No vulnerabilities available in the system to scan for.".

(** [POST /api/assets/:assetId/scan] *)
Definition scan_asset (interfere : Z -> DB -> DB) (now : Timestamp)
    (assetId : option Z) : M Response :=
  match assetId with
  | None => reply 400 (Message "Invalid asset ID format.")
  | Some aid =>
    try_catch
      (asset <- read (find_asset aid) ;;
       match asset with
       | None => int4_guard [aid] (reply 404 (Message "Asset not found."))
       | Some _ =>
         vulnerabilitiesToScan <- read scan_candidates ;;
         match vulnerabilitiesToScan with
         | [] => reply 200 (ScanResult no_vulnerabilities_message aid 0 0 0)
         | _ =>
           counters <- scan_loop interfere now aid vulnerabilitiesToScan 0 0 ;;
           reply 200 (ScanResult "Simulated scan completed." aid (fst counters) (snd counters)
                        (Z.of_nat (List.length vulnerabilitiesToScan)))
         end
       end)
      (fun _ => mkResponse 500 (Message "Internal server error during simulated scan."))
  end.

(** a run with no concurrent request *)
Definition alone : Z -> DB -> DB := fun _ s => s.

(** ** Dashboard queries ([dashboard.ts]) *)

(** [leftJoin(vulnerabilitiesTable, eq(link.vulnerabilityId, vulnerabilities.id))] *)
Definition left_join_vuln (s : DB) (l : Link) : list (option Vulnerability) :=
  match filter (fun v => v_id v =? l_vulnerabilityId l) (vulnerabilities s) with
  | [] => [None]
  | vs => map Some vs
  end.

Definition left_join_asset (s : DB) (l : Link) : list (option Asset) :=
  match filter (fun a => a_id a =? l_assetId l) (assets s) with
  | [] => [None]
  | xs => map Some xs
  end.

Definition is_open (l : Link) : bool := status_eqb (l_status l) Open.

Definition open_links (s : DB) : list Link := filter is_open (assets_vulnerabilities s).

(** the [severity] column of the open rows of the join *)
Definition open_severity_rows (s : DB) : list (option Severity) :=
  flat_map (fun l => map (option_map v_severity) (left_join_vuln s l)) (open_links s).

Definition option_severity_eqb (a b : option Severity) : bool :=
  match a, b with
  | Some x, Some y => severity_eqb x y
  | None, None => true
  | _, _ => false
  end.

(** [groupBy(vulnerabilitiesTable.severity)] with
    [count(vulnerabilitiesTable.severity)], which counts non-null values:
    one row per distinct key *)
Fixpoint distinct_keys (seen : list (option Severity)) (rows : list (option Severity))
    : list (option Severity) :=
  match rows with
  | [] => rev seen
  | r :: rs => if existsb (option_severity_eqb r) seen
               then distinct_keys seen rs
               else distinct_keys (r :: seen) rs
  end.

Definition group_count (rows : list (option Severity)) : list (option Severity * Z) :=
  map (fun k => (k, match k with
                    | None => 0
                    | Some _ => Z.of_nat (List.length (filter (option_severity_eqb k) rows))
                    end))
      (distinct_keys [] rows).

(** [acc[key] = value] on a JavaScript object: an existing key keeps its
    place, a new key is appended *)
Fixpoint js_set (acc : list (Severity * Z)) (k : Severity) (v : Z) : list (Severity * Z) :=
  match acc with
  | [] => [(k, v)]
  | (k', v') :: rest => if severity_eqb k k' then (k, v) :: rest
                        else (k', v') :: js_set rest k v
  end.

Fixpoint js_get (acc : list (Severity * Z)) (k : Severity) : option Z :=
  match acc with
  | [] => None
  | (k', v') :: rest => if severity_eqb k k' then Some v' else js_get rest k
  end.

(** [GET /api/dashboard/statistics] *)
Definition statistics : M Response :=
  try_catch
    (totalAssets <- read (fun s => Z.of_nat (List.length (assets s))) ;;
     totalVulnerabilities <- read (fun s => Z.of_nat (List.length (vulnerabilities s))) ;;
     totalOpen <- read (fun s => Z.of_nat (List.length (open_links s))) ;;
     openBySeverityResult <- read (fun s => group_count (open_severity_rows s)) ;;
     let init := fold_left (fun acc sv => js_set acc sv 0)
                           vulnerabilitySeverityEnum_enumValues [] in
     let bySeverity := fold_left (fun acc (row : option Severity * Z) =>
                                    match fst row with
                                    | Some sev => js_set acc sev (snd row)
                                    | None => acc
                                    end) openBySeverityResult init in
     reply 200 (StatisticsBody (mkStatistics totalAssets totalVulnerabilities totalOpen bySeverity)))
    (fun _ => mkResponse 500 (Message "Internal server error while fetching dashboard statistics.")).

(** the selected columns of one row of the double left join *)
Definition recent_row (l : Link) (ov : option Vulnerability) (oa : option Asset) : RecentItem :=
  mkRecentItem (l_id l)
    (option_map v_name ov) (option_map v_severity ov)
    (match ov with Some v => v_source v | None => None end)
    (option_map a_name oa) (option_map a_ipAddress oa)
    (l_updatedAt l).

Definition recent_join (s : DB) : list RecentItem :=
  flat_map (fun l => flat_map (fun ov => map (recent_row l ov) (left_join_asset s l))
                              (left_join_vuln s l))
           (open_links s).

(** [item => item.vulnerabilityName && item.assetName] *)
Definition recent_keep (r : RecentItem) : bool :=
  truthy_str (r_vulnerabilityName r) && truthy_str (r_assetName r).

(** [GET /api/dashboard/recent-vulnerabilities] *)
Definition recent_vulnerabilities : M Response :=
  try_catch
    (recentVulnerabilityInstances <-
       read (fun s => firstn 5 (sort_desc r_lastSeenOrUpdatedAt (recent_join s))) ;;
     reply 200 (RecentVulnerabilities (filter recent_keep recentVulnerabilityInstances)))
    (fun _ => mkResponse 500 (Message "Internal server error while fetching recent vulnerability instances.")).

(** ** Asset routes ([assets.ts]), the asset's link listing, the
    timestamp-only scan and the recent-assets query *)

(** [assetTypeEnum] *)
Definition asset_type_to_string (t : AssetType) : string :=
  match t with
  | Server => "server" | Workstation => "workstation" | NetworkDevice => "network_device"
  | IotDevice => "iot_device" | OtherType => "other"
  end.

Definition assetTypeEnum_enumValues : list string :=
  map asset_type_to_string [Server; Workstation; NetworkDevice; IotDevice; OtherType].

(** the cast of a text value to [asset_type] *)
Definition asset_type_of_string (s : string) : option AssetType :=
  if String.eqb s "server" then Some Server
  else if String.eqb s "workstation" then Some Workstation
  else if String.eqb s "network_device" then Some NetworkDevice
  else if String.eqb s "iot_device" then Some IotDevice
  else if String.eqb s "other" then Some OtherType
  else None.

(** one element of the answer of [GET /:assetId/vulnerabilities] *)
Record LinkedItem := mkLinkedItem {
  li_joinId : Z;
  li_assetId : Z;
  li_status : Status;
  li_details : option string;
  li_remediationNotes : option string;
  li_lastSeenAt : Timestamp;
  li_updatedAt : Timestamp;
  li_vulnerability : option Vulnerability
}.

(** one row of [GET /api/dashboard/recent-assets] *)
Record RecentAsset := mkRecentAsset {
  ra_id : Z;
  ra_name : string;
  ra_type : AssetType;
  ra_ipAddress : string;
  ra_createdAt : Timestamp
}.

(** bodies of the routes answering table rows *)
Inductive RowBody :=
| RowMessage (message : string)
| AssetRow (asset : Asset)
| VulnerabilityRow (vulnerability : Vulnerability)
| LinkedVulnerabilities (rows : list LinkedItem)
| RecentAssets (rows : list RecentAsset).

Record RowResponse := mkRowResponse { rcode : Z; rbody : RowBody }.

Definition row_reply (c : Z) (b : RowBody) : M RowResponse := ret (mkRowResponse c b).

(** [result = linkedVulnerabilities.map(link => ({ joinId: ..., vulnerability: ... }))] *)
Definition linked_item (l : Link) (ov : option Vulnerability) : LinkedItem :=
  mkLinkedItem (l_id l) (l_assetId l) (l_status l) (l_details l) (l_remediationNotes l)
               (l_lastSeenAt l) (l_updatedAt l) ov.

(** [GET /api/assets/:assetId/vulnerabilities] ([part_008], lines 122-158):
    the links of the asset left-joined with their vulnerability, ordered by
    [lastSeenAt] descending *)
Definition list_asset_links (assetId : option Z) : M RowResponse :=
  match assetId with
  | None => row_reply 400 (RowMessage "Invalid asset ID format.")
  | Some aid =>
    try_catch
      (assetExists <- read (find_asset aid) ;;
       match assetExists with
       | None => int4_guard [aid] (row_reply 404 (RowMessage "Asset not found."))
       | Some _ =>
         linkedVulnerabilities <- read (fun s =>
           sort_desc (fun r => l_lastSeenAt (fst r))
             (flat_map (fun l => map (fun ov => (l, ov)) (left_join_vuln s l))
                       (filter (fun l => l_assetId l =? aid) (assets_vulnerabilities s)))) ;;
         row_reply 200 (LinkedVulnerabilities
                          (map (fun r => linked_item (fst r) (snd r)) linkedVulnerabilities))
       end)
      (fun _ => mkRowResponse 500 (RowMessage "Internal server error."))
  end.

(** [GET /api/assets/:assetId] ([assets.ts], lines 64-84) *)
Definition get_asset (assetId : option Z) : M RowResponse :=
  match assetId with
  | None => row_reply 400 (RowMessage "Invalid asset ID format.")
  | Some aid =>
    try_catch
      (asset <- read (find_asset aid) ;;
       match asset with
       | None => int4_guard [aid] (row_reply 404 (RowMessage "Asset not found."))
       | Some a => row_reply 200 (AssetRow a)
       end)
      (fun _ => mkRowResponse 500 (RowMessage "Internal server error while fetching asset."))
  end.

(** [GET /api/vulnerabilities/:vulnerabilityId] ([vulnerabilities.ts], lines 79-100) *)
Definition get_vulnerability (vulnerabilityId : option Z) : M RowResponse :=
  match vulnerabilityId with
  | None => row_reply 400 (RowMessage "Invalid vulnerability ID format.")
  | Some vid =>
    try_catch
      (vulnerability <- read (find_vuln vid) ;;
       match vulnerability with
       | None => int4_guard [vid] (row_reply 404 (RowMessage "Vulnerability not found."))
       | Some v => row_reply 200 (VulnerabilityRow v)
       end)
      (fun _ => mkRowResponse 500 (RowMessage "Internal server error while fetching vulnerability."))
  end.

(** the object passed to [.set(...)] of an update of the asset table;
    [None] is an absent key, [Some None] a [null] *)
Record AssetPatch := mkAssetPatch {
  pa_name : option (option string);
  pa_type : option (option string);
  pa_ipAddress : option (option string);
  pa_macAddress : option (option string);
  pa_operatingSystem : option (option string);
  pa_description : option (option string);
  pa_lastScannedAt : option (option Timestamp)
}.

Definition asset_patch_is_empty (p : AssetPatch) : bool :=
  match pa_name p, pa_type p, pa_ipAddress p, pa_macAddress p,
        pa_operatingSystem p, pa_description p, pa_lastScannedAt p with
  | None, None, None, None, None, None, None => true
  | _, _, _, _, _, _, _ => false
  end.

Definition is_null_set {A} (o : option (option A)) : bool :=
  match o with Some None => true | _ => false end.

Definition apply_asset_patch (ty : option AssetType) (p : AssetPatch) (now : Timestamp)
    (a : Asset) : Asset :=
  mkAsset (a_id a)
    (match pa_name p with Some (Some x) => x | _ => a_name a end)
    (match ty with Some t => t | None => a_type a end)
    (match pa_ipAddress p with Some (Some x) => x | _ => a_ipAddress a end)
    (match pa_macAddress p with Some x => x | None => a_macAddress a end)
    (match pa_operatingSystem p with Some x => x | None => a_operatingSystem a end)
    (match pa_description p with Some x => x | None => a_description a end)
    (match pa_lastScannedAt p with Some x => x | None => a_lastScannedAt a end)
    (a_createdAt a)
    now (** [updatedAt]: [$onUpdate(() => new Date())] *).

(** [update(assetsTable).set(p).where(w).returning()], [None] when the
    statement fails: a [type] text that is no [asset_type] fails the cast
    of the parameter, a [null] for one of the NOT NULL columns [name],
    [type] and [ip_address] fails as soon as a row is rewritten *)
Definition update_assets (w : Asset -> bool) (p : AssetPatch) (now : Timestamp) (s : DB)
    : option (list Asset * DB) :=
  let go (ty : option AssetType) :=
    let rows := filter w (assets s) in
    match rows with
    | _ :: _ =>
      if is_null_set (pa_name p) || is_null_set (pa_type p) || is_null_set (pa_ipAddress p)
      then None
      else Some (map (apply_asset_patch ty p now) rows,
                 mkDB (map (fun a => if w a then apply_asset_patch ty p now a else a) (assets s))
                      (vulnerabilities s) (assets_vulnerabilities s) (link_serial s))
    | [] => Some ([], s)
    end in
  match pa_type p with
  | Some (Some x) => match asset_type_of_string x with
                     | Some t => go (Some t)
                     | None => None
                     end
  | _ => go None
  end.

(** request body of [PUT /api/assets/:assetId]: each field is [None]
    when [undefined] and [Some None] when [null] *)
Record UpdateAssetBody := mkUpdateAssetBody {
  ub_name : option (option string);
  ub_type : option (option string);
  ub_ipAddress : option (option string);
  ub_macAddress : option (option string);
  ub_operatingSystem : option (option string);
  ub_description : option (option string)
}.

(** [PUT /api/assets/:assetId] ([assets.ts], lines 87-130) *)
Definition update_asset (now : Timestamp) (assetId : option Z) (b : UpdateAssetBody)
    : M RowResponse :=
  match assetId with
  | None => row_reply 400 (RowMessage "Invalid asset ID format.")
  | Some aid =>
    if truthy_str (match ub_type b with Some x => x | None => None end)
       && negb (includes assetTypeEnum_enumValues
                         (match ub_type b with Some (Some x) => x | _ => "" end))
    then row_reply 400 (RowMessage "Invalid asset type. Must be one of: server, workstation, network_device, iot_device, other")
    else
    let updateData := mkAssetPatch (ub_name b) (ub_type b) (ub_ipAddress b) (ub_macAddress b)
                                   (ub_operatingSystem b) (ub_description b) None in
    if asset_patch_is_empty updateData
    then row_reply 400 (RowMessage "No fields provided for update.")
    else
    fun s =>
      match update_assets (fun a => a_id a =? aid) updateData now s with
      | None => (Ok (mkRowResponse 500 (RowMessage "Internal server error while updating asset.")), s)
      | Some ([], s') =>
        if int4_ok aid
        then (Ok (mkRowResponse 404 (RowMessage "Asset not found or no changes made.")), s')
        else (Ok (mkRowResponse 500 (RowMessage "Internal server error while updating asset.")), s)
      | Some (a :: _, s') => (Ok (mkRowResponse 200 (AssetRow a)), s')
      end
  end.

(** [POST /api/assets/:assetId/scan] of the later version of the asset
    router ([part_008], lines 489-513): it only stamps [lastScannedAt] *)
Definition scan_touch (now : Timestamp) (assetId : option Z) : M RowResponse :=
  match assetId with
  | None => row_reply 400 (RowMessage "Invalid asset ID format.")
  | Some aid =>
    fun s =>
      match update_assets (fun a => a_id a =? aid)
              (mkAssetPatch None None None None None None (Some (Some now))) now s with
      | None => (Ok (mkRowResponse 500 (RowMessage "Internal server error while updating asset scan time.")), s)
      | Some ([], s') =>
        if int4_ok aid
        then (Ok (mkRowResponse 404 (RowMessage "Asset not found.")), s')
        else (Ok (mkRowResponse 500 (RowMessage "Internal server error while updating asset scan time.")), s)
      | Some (a :: _, s') => (Ok (mkRowResponse 200 (AssetRow a)), s')
      end
  end.

(** the selected columns of [GET /api/dashboard/recent-assets] *)
Definition recent_asset (a : Asset) : RecentAsset :=
  mkRecentAsset (a_id a) (a_name a) (a_type a) (a_ipAddress a) (a_createdAt a).

(** [GET /api/dashboard/recent-assets] ([dashboard.ts], lines 108-127) *)
Definition recent_assets : M RowResponse :=
  try_catch
    (recentAssets <- read (fun s => map recent_asset (firstn 5 (sort_desc a_createdAt (assets s)))) ;;
     row_reply 200 (RecentAssets recentAssets))
    (fun _ => mkRowResponse 500 (RowMessage "Internal server error while fetching recent assets.")).

(** ** A sample store *)

(** one server and one workstation, a critical and a low vulnerability, and
    one link of the server to the critical one, marked remediated *)
Definition sample_server : Asset :=
  mkAsset 1 "srv-01" Server "10.0.0.1" None None None None 0 0.
Definition sample_workstation : Asset :=
  mkAsset 2 "ws-01" Workstation "10.0.0.2" None None None None 0 0.
Definition sample_critical : Vulnerability :=
  mkVuln 1 "CVE-A" "remote code execution" Critical (Some 98) None None 0 0.
Definition sample_low : Vulnerability :=
  mkVuln 2 "CVE-B" "information leak" Low (Some 21) None None 0 0.
Definition sample_link : Link :=
  mkLink 1 1 1 Remediated 5 None None 5.
Definition sample_db : DB :=
  mkDB [sample_server; sample_workstation] [sample_critical; sample_low] [sample_link] 2.

(** the same parents, with the server open on the critical vulnerability
    and the workstation open on the low one *)
Definition sample_open_db : DB :=
  mkDB [sample_server; sample_workstation] [sample_critical; sample_low]
       [mkLink 1 1 1 Open 10 None None 10; mkLink 2 2 2 Open 12 None None 12] 3.

(** a concurrent request that links the server to the low vulnerability *)
Definition sample_race (k : Z) (t : DB) : DB :=
  mkDB (assets t) (vulnerabilities t)
       (assets_vulnerabilities t ++ [mkLink (link_serial t) 1 k Open 50 None None 50])
       (link_serial t + 1).

(** ** Properties the statements use *)

Definition desc_by {A} (key : A -> Z) (a b : A) : Prop := key b <= key a.

Definition same_parents (s t : DB) : Prop :=
  assets t = assets s /\ vulnerabilities t = vulnerabilities s.

(** one step of [openBySeverityResult.forEach] *)
Definition severity_step (acc : list (Severity * Z)) (row : option Severity * Z) :=
  match fst row with
  | Some sev => js_set acc sev (snd row)
  | None => acc
  end.

Definition open_count_by_severity (s : DB) (sev : Severity) : Z :=
  Z.of_nat (List.length (filter (option_severity_eqb (Some sev)) (open_severity_rows s))).

(** what a cascade leaves of the link table, for a predicate [keep]
    selecting the links of the other parents *)
Definition cascade_result (keep : Link -> bool) (s s' : DB) : Prop :=
  assets_vulnerabilities s' = filter keep (assets_vulnerabilities s) /\
  List.length (assets_vulnerabilities s)
  = (List.length (assets_vulnerabilities s')
     + List.length (filter (fun l => negb (keep l)) (assets_vulnerabilities s)))%nat /\
  (forall l, In l (assets_vulnerabilities s) -> keep l = false ->
             find_link_by_id (l_id l) s' = None) /\
  (forall l, In l (assets_vulnerabilities s) -> keep l = true ->
             In l (assets_vulnerabilities s')).

(** the values of an update that the store accepts *)
Definition patch_storable (p : LinkPatch) : bool :=
  match p_status p with
  | None => true
  | Some x => match status_of_string x with Some _ => true | None => false end
  end &&
  match p_lastSeenAt p with Some None => false | _ => true end.

Definition update_body_acceptable (b : UpdateLinkBody) : bool :=
  let p := mkLinkPatch (u_status b) (u_details b) (u_remediationNotes b) (u_lastSeenAt b) in
  negb (patch_is_empty p) && patch_storable p.


Definition pairs_unique (s : DB) : Prop :=
  forall x y, In x (assets_vulnerabilities s) -> In y (assets_vulnerabilities s) ->
              l_assetId x = l_assetId y -> l_vulnerabilityId x = l_vulnerabilityId y -> x = y.

(** the foreign keys of the link table hold *)
Definition links_referenced (s : DB) : Prop :=
  forall x, In x (assets_vulnerabilities s) ->
            find_asset (l_assetId x) s <> None /\ find_vuln (l_vulnerabilityId x) s <> None.

(** the status field of a create request passes the route's check *)
Definition create_status_ok (b : CreateLinkBody) : bool :=
  match b_status b with
  | None => true
  | Some x => String.eqb x "" || includes vulnerabilityStatusEnum_enumValues x
  end.

(** the [lastSeenAt] field is absent or a valid date *)
Definition create_date_ok (b : CreateLinkBody) : bool :=
  match b_lastSeenAt b with Some None => false | _ => true end.

(** an existing link seen again: open, [lastSeenAt] and [updatedAt] now *)
Definition refresh (now : Timestamp) (x : Link) : Link :=
  mkLink (l_id x) (l_assetId x) (l_vulnerabilityId x) Open now
         (l_details x) (l_remediationNotes x) now.

(** the row [x] after the scan's update of the link [l] found for a candidate *)
Definition reopen (now : Timestamp) (l x : Link) : Link :=
  mkLink (l_id x) (l_assetId x) (l_vulnerabilityId x)
         (if status_eqb (l_status l) Open then l_status x else Open) now
         (l_details x) (l_remediationNotes x) now.

Definition has_link (s : DB) (aid : Z) (v : Vulnerability) : bool :=
  match find_link_pair aid (v_id v) s with Some _ => true | None => false end.

Definition touched (aid : Z) (done : list Z) (x : Link) : bool :=
  (l_assetId x =? aid) && existsb (Z.eqb (l_vulnerabilityId x)) done.

Definition merged (aid now : Z) (done : list Z) (x : Link) : Link :=
  if touched aid done x then refresh now x else x.

(** the link table after the candidates [done] of a scan of [aid] started
    on [s0]: the links of [s0] they hit are refreshed, and [extra] holds
    the links the scan inserted *)
Definition scan_inv (s0 : DB) (aid now : Z) (done : list Z) (t : DB) : Prop :=
  exists extra,
    assets_vulnerabilities t = map (merged aid now done) (assets_vulnerabilities s0) ++ extra /\
    (forall x, In x extra ->
       l_assetId x = aid /\ In (l_vulnerabilityId x) done /\ link_serial s0 <= l_id x) /\
    link_serial s0 <= link_serial t /\
    same_parents s0 t.

(** the status a create request stores: the given one, or [open] when it
    is absent or empty *)
Definition create_status_text (b : CreateLinkBody) : string :=
  match b_status b with
  | Some x => if String.eqb x "" then "open" else x
  | None => "open"
  end.

(** The sum of a list of integers. *)
Definition zsum (xs : list Z) : Z := fold_right Z.add 0 xs.

(** * Proofs *)

(** ** List facts used by the query models *)

Section ListFacts.
Context {A : Type}.
Variable key : A -> Z.

Lemma insert_desc_perm (x : A) (xs : list A) :
  Permutation (insert_desc key x xs) (x :: xs).
Proof.
  induction xs as [|y ys IH]; simpl; [reflexivity|].
  destruct (key y <? key x); [reflexivity|].
  rewrite IH. apply perm_swap.
Qed.

Lemma sort_desc_perm (xs : list A) : Permutation (sort_desc key xs) xs.
Proof.
  induction xs as [|x xs IH]; simpl; [reflexivity|].
  rewrite insert_desc_perm. now apply perm_skip.
Qed.

Lemma insert_desc_sorted (x : A) (xs : list A) :
  StronglySorted (desc_by key) xs -> StronglySorted (desc_by key) (insert_desc key x xs).
Proof.
  induction xs as [|y ys IH]; simpl; intros Hs.
  - repeat constructor.
  - apply StronglySorted_inv in Hs as [Hys Hy].
    destruct (key y <? key x) eqn:E.
    + apply Z.ltb_lt in E. constructor; [now constructor|].
      constructor; [unfold desc_by; lia|].
      rewrite Forall_forall in Hy |- *. intros z Hz.
      specialize (Hy z Hz). unfold desc_by in *. lia.
    + apply Z.ltb_ge in E. constructor; [now apply IH|].
      rewrite Forall_forall in Hy |- *. intros z Hz.
      apply (Permutation_in _ (insert_desc_perm x ys)) in Hz.
      destruct Hz as [<-|Hz]; [unfold desc_by; lia|]. now apply Hy.
Qed.

Lemma sort_desc_sorted (xs : list A) : StronglySorted (desc_by key) (sort_desc key xs).
Proof.
  induction xs as [|x xs IH]; simpl; [constructor|]. now apply insert_desc_sorted.
Qed.

Lemma StronglySorted_firstn (R : A -> A -> Prop) n (xs : list A) :
  StronglySorted R xs -> StronglySorted R (firstn n xs).
Proof.
  revert xs; induction n as [|n IH]; intros [|x xs] Hs; simpl; [constructor..|].
  apply StronglySorted_inv in Hs as [Hxs Hx]. constructor; [now apply IH|].
  rewrite Forall_forall in Hx |- *. intros z Hz. apply Hx.
  rewrite <- (firstn_skipn n xs). apply in_or_app. now left.
Qed.

Lemma StronglySorted_filter (R : A -> A -> Prop) (f : A -> bool) (xs : list A) :
  StronglySorted R xs -> StronglySorted R (filter f xs).
Proof.
  induction xs as [|x xs IH]; simpl; intros Hs; [constructor|].
  apply StronglySorted_inv in Hs as [Hxs Hx].
  destruct (f x); [constructor|]; auto.
  rewrite Forall_forall in Hx |- *. intros z Hz. apply filter_In in Hz. now apply Hx.
Qed.

Lemma in_firstn (n : nat) (x : A) (xs : list A) : In x (firstn n xs) -> In x xs.
Proof.
  intros H. rewrite <- (firstn_skipn n xs). apply in_or_app. now left.
Qed.

Lemma NoDup_map_firstn (f : A -> Z) (n : nat) (xs : list A) :
  NoDup (map f xs) -> NoDup (map f (firstn n xs)).
Proof.
  rewrite <- (firstn_skipn n xs) at 1. rewrite map_app.
  apply NoDup_app_remove_r.
Qed.

(** a [find] on a key that is unique in the list returns the row *)
Lemma find_unique_key (f : A -> Z) (x : A) (xs : list A) :
  NoDup (map f xs) -> In x xs -> find (fun y => f y =? f x) xs = Some x.
Proof.
  induction xs as [|y ys IH]; simpl; intros Hnd Hin; [contradiction|].
  inversion Hnd as [|? ? Hy Hys]; subst.
  destruct (f y =? f x) eqn:E.
  - apply Z.eqb_eq in E. destruct Hin as [->|Hin]; [reflexivity|].
    exfalso. apply Hy. rewrite E. now apply in_map.
  - destruct Hin as [->|Hin]; [now rewrite Z.eqb_refl in E|]. now apply IH.
Qed.

End ListFacts.

(** ** Frame of the store calls: which tables each one can change *)

Lemma insert_link_parents v now s : same_parents s (snd (insert_link v now s)).
Proof.
  unfold insert_link, same_parents.
  destruct (i_lastSeenAt v); [|auto].
  destruct (status_of_string (i_status v)); [|auto].
  destruct (existsb (is_pair (i_assetId v) (i_vulnerabilityId v)) (assets_vulnerabilities s));
    [simpl; auto|].
  destruct (find_asset (i_assetId v) s), (find_vuln (i_vulnerabilityId v) s); simpl; auto.
Qed.

Lemma update_links_parents w p now s : same_parents s (snd (update_links w p now s)).
Proof.
  unfold update_links, same_parents.
  destruct (p_lastSeenAt p) as [[t|]|], (p_status p) as [x|];
    try destruct (status_of_string x); simpl; auto.
Qed.

Lemma scan_loop_parents interfere now aid vs :
  (forall k t, same_parents t (interfere k t)) ->
  forall n u s, same_parents s (snd (scan_loop interfere now aid vs n u s)).
Proof.
  intros Hi. induction vs as [|v vs IH]; intros n u s; [split; reflexivity|].
  simpl. unfold bind at 1, read. destruct (find_link_pair aid (v_id v) s) as [l|].
  - unfold bind. pose proof (update_links_parents (fun x => l_id x =? l_id l)
      (mkLinkPatch (if status_eqb (l_status l) Open then None else Some "open"%string)
                   None None (Some (Some now))) now s) as Hu.
    destruct (update_links _ _ _ s) as [[r|e] s1]; simpl in *; [|exact Hu].
    destruct (IH n (u + 1) s1) as [H1 H2]. destruct Hu as [H3 H4]. split; congruence.
  - unfold bind, interleave. destruct (Hi (v_id v) s) as [H5 H6].
    pose proof (insert_link_parents (mkLinkInsert aid (v_id v) "open" None None (Some now))
                  now (interfere (v_id v) s)) as Hn.
    destruct (insert_link _ _ _) as [[r|e] s1]; simpl in *;
      destruct Hn as [H3 H4]; [|split; congruence].
    destruct (IH (n + 1) u s1) as [H1 H2]. split; congruence.
Qed.

(** ** Counters of the scan loop *)

Lemma scan_loop_counts interfere now aid vs :
  forall n u s n' u' s',
    scan_loop interfere now aid vs n u s = (Ok (n', u'), s') ->
    n' + u' = n + u + Z.of_nat (List.length vs).
Proof.
  induction vs as [|v vs IH]; intros n u s n' u' s' H; simpl in H.
  - unfold ret in H. inversion H; subst. simpl. lia.
  - unfold bind at 1, read in H. destruct (find_link_pair aid (v_id v) s) as [l|].
    + unfold bind in H. destruct (update_links _ _ _ s) as [[r|e] s1]; [|discriminate].
      apply IH in H. simpl List.length. lia.
    + unfold bind, interleave in H.
      destruct (insert_link _ _ _) as [[r|e] s1]; [|discriminate].
      apply IH in H. simpl List.length. lia.
Qed.

Lemma scan_candidates_length s : (List.length (scan_candidates s) <= 5)%nat.
Proof. apply firstn_le_length. Qed.

(** ** Claims about the simulated scan *)

(** C5: on a system with no vulnerability at all, the scan of an existing
    asset answers at once with the message that no vulnerabilities are
    available and the three counters at 0, and leaves the store exactly as
    it was (no link created, modified or deleted). *)
Theorem scan_asset_no_vulnerabilities (interfere : Z -> DB -> DB) (now aid : Z)
    (a : Asset) (s : DB) :
  find_asset aid s = Some a ->
  vulnerabilities s = [] ->
  scan_asset interfere now (Some aid) s
  = (Ok (mkResponse 200 (ScanResult no_vulnerabilities_message aid 0 0 0)), s).
Proof.
  intros Ha Hv. unfold scan_asset, try_catch, bind, read, reply, ret.
  rewrite Ha. unfold scan_candidates. rewrite Hv. reflexivity.
Qed.

(** C9: whenever the scan answers 200 with its counters, every candidate
    was counted once: [newlyLinked + updatedLinks = vulnerabilitiesProcessed],
    and [vulnerabilitiesProcessed] is the size of the candidate batch, at
    most 5.  This holds whatever concurrent requests do meanwhile. *)
Theorem scan_asset_counters (interfere : Z -> DB -> DB) (now : Z) (assetId : option Z)
    (s s' : DB) (m : string) (aid n u p : Z) :
  scan_asset interfere now assetId s
  = (Ok (mkResponse 200 (ScanResult m aid n u p)), s') ->
  n + u = p /\ p = Z.of_nat (List.length (scan_candidates s)) /\ p <= 5.
Proof.
  pose proof (scan_candidates_length s) as Hlen.
  destruct assetId as [a|]; unfold scan_asset, try_catch, bind, read, reply, ret;
    [|discriminate].
  destruct (find_asset a s) as [x|];
    [|unfold int4_guard; destruct (forallb int4_ok [a]); discriminate].
  destruct (scan_candidates s) as [|c cs] eqn:Hc.
  - intros H. inversion H; subst. simpl. lia.
  - destruct (scan_loop interfere now a (c :: cs) 0 0 s) as [[[n0 u0]|e] s1] eqn:E;
      intros H; inversion H; subst.
    apply scan_loop_counts in E. simpl in *. lia.
Qed.

(** C10: the link-merging scan never writes the asset table (nor the
    vulnerability table): for every outcome (200, 400, 404 or 500), both
    tables are the same before and after the call, so every field of the
    scanned asset, [lastScannedAt] and [updatedAt] included, is unchanged.
    Concurrent requests are assumed not to write those tables either. *)
Theorem scan_asset_leaves_parents (interfere : Z -> DB -> DB) (now : Z)
    (assetId : option Z) (s : DB) :
  (forall k t, same_parents t (interfere k t)) ->
  same_parents s (snd (scan_asset interfere now assetId s)).
Proof.
  intros Hi. destruct assetId as [a|];
    unfold scan_asset, try_catch, bind, read, reply, ret; [|split; reflexivity].
  destruct (find_asset a s) as [x|];
    [|unfold int4_guard; destruct (forallb int4_ok [a]); split; reflexivity].
  destruct (scan_candidates s) as [|c cs]; [split; reflexivity|].
  pose proof (scan_loop_parents interfere now a (c :: cs) Hi 0 0 s) as Hl.
  destruct (scan_loop interfere now a (c :: cs) 0 0 s) as [[[n0 u0]|e] s1]; exact Hl.
Qed.

(** ** Per-severity breakdown of the statistics *)

Lemma severity_eqb_spec (a b : Severity) : severity_eqb a b = true <-> a = b.
Proof. destruct a, b; simpl; split; congruence. Qed.

Lemma severity_eqb_refl (a : Severity) : severity_eqb a a = true.
Proof. now apply severity_eqb_spec. Qed.

Lemma option_severity_eqb_spec (a b : option Severity) :
  option_severity_eqb a b = true <-> a = b.
Proof.
  destruct a as [x|], b as [y|]; simpl; try (split; congruence).
  rewrite severity_eqb_spec. split; congruence.
Qed.

Lemma js_set_keys acc k v :
  In k (map fst acc) -> map fst (js_set acc k v) = map fst acc.
Proof.
  induction acc as [|[k' v'] rest IH]; simpl; [tauto|].
  destruct (severity_eqb k k') eqn:E.
  - apply severity_eqb_spec in E. subst. reflexivity.
  - intros [->|H]; [now rewrite severity_eqb_refl in E|]. simpl. now rewrite IH.
Qed.

Lemma js_get_set_same acc k v : js_get (js_set acc k v) k = Some v.
Proof.
  induction acc as [|[k' v'] rest IH]; simpl; [now rewrite severity_eqb_refl|].
  destruct (severity_eqb k k') eqn:E; simpl; [now rewrite severity_eqb_refl|].
  now rewrite E.
Qed.

Lemma js_get_set_other acc k v k2 :
  k <> k2 -> js_get (js_set acc k v) k2 = js_get acc k2.
Proof.
  intros Hne.
  assert (Hf : severity_eqb k2 k = false).
  { destruct (severity_eqb k2 k) eqn:E; [|reflexivity].
    apply severity_eqb_spec in E. congruence. }
  induction acc as [|[k' v'] rest IH]; simpl.
  - now rewrite Hf.
  - destruct (severity_eqb k k') eqn:E; simpl.
    + apply severity_eqb_spec in E. subst. now rewrite Hf.
    + now rewrite IH.
Qed.

Lemma severity_fold_keys (G : list (option Severity * Z)) :
  forall acc, (forall k, In k (map fst acc)) ->
  map fst (fold_left severity_step G acc) = map fst acc.
Proof.
  induction G as [|g G IH]; intros acc Hk; simpl; [reflexivity|].
  assert (Hs : map fst (severity_step acc g) = map fst acc).
  { unfold severity_step. destruct (fst g); [now apply js_set_keys|reflexivity]. }
  rewrite IH; [exact Hs|]. intros k. rewrite Hs. apply Hk.
Qed.

Lemma severity_fold_get (sev : Severity) (c : Z) (G : list (option Severity * Z)) :
  (forall g, In g G -> fst g = Some sev -> snd g = c) ->
  forall acc, js_get (fold_left severity_step G acc) sev
              = if existsb (fun g => option_severity_eqb (fst g) (Some sev)) G
                then Some c else js_get acc sev.
Proof.
  induction G as [|g G IH]; intros Hc acc; simpl; [reflexivity|].
  rewrite IH by (intros g0 Hg0 Hk; apply Hc; [right; exact Hg0|exact Hk]).
  destruct (existsb _ G); [now rewrite orb_true_r|rewrite orb_false_r].
  unfold severity_step. destruct g as [[sev'|] cnt]; simpl.
  - destruct (severity_eqb sev' sev) eqn:E.
    + apply severity_eqb_spec in E. subst. rewrite js_get_set_same.
      f_equal. apply (Hc (Some sev, cnt)); simpl; auto.
    + apply js_get_set_other. intros ->. now rewrite severity_eqb_refl in E.
  - reflexivity.
Qed.

Lemma distinct_keys_complete (rows : list (option Severity)) :
  forall seen r, In r rows \/ In r seen -> In r (distinct_keys seen rows).
Proof.
  induction rows as [|r0 rs IH]; intros seen r H; simpl.
  - destruct H as [[]|H]. now apply in_rev in H.
  - destruct (existsb (option_severity_eqb r0) seen) eqn:E; apply IH.
    + destruct H as [[->|H]|H]; auto. right.
      apply existsb_exists in E as [x [Hx Hx']].
      apply option_severity_eqb_spec in Hx'. now subst.
    + simpl in *. tauto.
Qed.

Lemma group_count_value (rows : list (option Severity)) (sev : Severity) g :
  In g (group_count rows) -> fst g = Some sev ->
  snd g = Z.of_nat (List.length (filter (option_severity_eqb (Some sev)) rows)).
Proof.
  unfold group_count. intros Hg. apply in_map_iff in Hg as [k [<- _]].
  simpl. intros ->. reflexivity.
Qed.

Lemma group_count_absent (rows : list (option Severity)) (sev : Severity) :
  existsb (fun g => option_severity_eqb (fst g) (Some sev)) (group_count rows) = false ->
  List.length (filter (option_severity_eqb (Some sev)) rows) = 0%nat.
Proof.
  intros H. destruct (filter (option_severity_eqb (Some sev)) rows) as [|r rs] eqn:E;
    [reflexivity|exfalso].
  assert (Hr : In r (filter (option_severity_eqb (Some sev)) rows)) by (rewrite E; now left).
  apply filter_In in Hr as [Hr Hq]. apply option_severity_eqb_spec in Hq. subst r.
  assert (Hk : In (Some sev) (distinct_keys [] rows)) by (apply distinct_keys_complete; auto).
  assert (Hin : existsb (fun g => option_severity_eqb (fst g) (Some sev)) (group_count rows) = true).
  { apply existsb_exists. eexists. split.
    - unfold group_count. apply in_map_iff. exists (Some sev). split; [reflexivity|exact Hk].
    - simpl. apply severity_eqb_refl. }
  congruence.
Qed.

Lemma left_join_vuln_some s l v :
  In (Some v) (left_join_vuln s l) -> In v (vulnerabilities s) /\ v_id v = l_vulnerabilityId l.
Proof.
  unfold left_join_vuln.
  destruct (filter _ (vulnerabilities s)) as [|x xs] eqn:E.
  - intros [H|[]]. discriminate.
  - rewrite <- E. intros H. apply in_map_iff in H as [v' [[= ->] Hv]].
    apply filter_In in Hv as [Hv Hq]. split; [exact Hv|]. now apply Z.eqb_eq.
Qed.

Lemma left_join_asset_some s l a :
  In (Some a) (left_join_asset s l) -> In a (assets s) /\ a_id a = l_assetId l.
Proof.
  unfold left_join_asset.
  destruct (filter _ (assets s)) as [|x xs] eqn:E.
  - intros [H|[]]. discriminate.
  - rewrite <- E. intros H. apply in_map_iff in H as [a' [[= ->] Ha]].
    apply filter_In in Ha as [Ha Hq]. split; [exact Ha|]. now apply Z.eqb_eq.
Qed.

Lemma is_open_true l : is_open l = true -> l_status l = Open.
Proof. unfold is_open, status_eqb. destruct (l_status l); cbv; congruence. Qed.

Lemma open_severity_rows_some s sev :
  In (Some sev) (open_severity_rows s) ->
  exists l v, In l (assets_vulnerabilities s) /\ l_status l = Open /\
              In v (vulnerabilities s) /\ v_id v = l_vulnerabilityId l /\ v_severity v = sev.
Proof.
  unfold open_severity_rows, open_links. intros H.
  apply in_flat_map in H as [l [Hl Hr]]. apply filter_In in Hl as [Hl Ho].
  apply in_map_iff in Hr as [[v|] [Hv Hin]]; [|discriminate].
  injection Hv as Hv. apply left_join_vuln_some in Hin as [Hin Hid].
  exists l, v. repeat split; auto using is_open_true.
Qed.

(** ** Recent open instances *)

Lemma recent_join_in s r :
  In r (recent_join s) ->
  exists l ov oa, In l (open_links s) /\ In ov (left_join_vuln s l) /\
                  In oa (left_join_asset s l) /\ r = recent_row l ov oa.
Proof.
  unfold recent_join. intros H.
  apply in_flat_map in H as [l [Hl H]]. apply in_flat_map in H as [ov [Hov H]].
  apply in_map_iff in H as [oa [<- Hoa]]. exists l, ov, oa. auto.
Qed.

(** ** Cascade deletion *)

Lemma existsb_all_equal (ids : list Z) (k y : Z) :
  ids <> [] -> (forall x, In x ids -> x = k) -> existsb (Z.eqb y) ids = (y =? k).
Proof.
  destruct ids as [|i is]; [congruence|]. intros _ Hall.
  rewrite (Hall i (or_introl eq_refl)). simpl.
  destruct (y =? k) eqn:E; [reflexivity|]. simpl.
  apply not_true_iff_false. intros Hex. apply existsb_exists in Hex as [x [Hx Hxy]].
  rewrite (Hall x (or_intror Hx)) in Hxy. congruence.
Qed.

Lemma find_none_intro {A} (p : A -> bool) (xs : list A) :
  (forall x, In x xs -> p x = false) -> find p xs = None.
Proof.
  induction xs as [|y ys IH]; simpl; intros H; [reflexivity|].
  rewrite (H y (or_introl eq_refl)). apply IH. auto.
Qed.

Lemma NoDup_map_same {A} (f : A -> Z) (xs : list A) x y :
  NoDup (map f xs) -> In x xs -> In y xs -> f x = f y -> x = y.
Proof.
  induction xs as [|z zs IH]; simpl; [tauto|]. intros Hnd Hx Hy Hf.
  inversion Hnd as [|? ? Hz Hzs]; subst.
  destruct Hx as [<-|Hx], Hy as [<-|Hy]; auto.
  - exfalso. apply Hz. rewrite Hf. now apply in_map.
  - exfalso. apply Hz. rewrite <- Hf. now apply in_map.
Qed.

Lemma cascade_result_filter (keep : Link -> bool) (s s' : DB) :
  NoDup (map l_id (assets_vulnerabilities s)) ->
  assets_vulnerabilities s' = filter keep (assets_vulnerabilities s) ->
  cascade_result keep s s'.
Proof.
  intros Hnd Heq. unfold cascade_result. rewrite Heq.
  split; [reflexivity|]. split; [symmetry; apply filter_length|].
  split.
  - intros l Hl Hk. unfold find_link_by_id. rewrite Heq. apply find_none_intro.
    intros x Hx. apply filter_In in Hx as [Hx Hkx].
    destruct (l_id x =? l_id l) eqn:E; [|reflexivity].
    apply Z.eqb_eq in E. rewrite (NoDup_map_same l_id _ x l Hnd Hx Hl E) in Hkx. congruence.
  - intros l Hl Hk. apply filter_In. auto.
Qed.

(** ** Claims about the dashboard queries and the cascade *)

(** C6: for every store, [GET /statistics] answers 200 with a per-severity
    breakdown whose keys are exactly the five severities, in the order of
    the enum; the value of each severity is the number of open link rows
    joined to a vulnerability of that severity, hence 0 for a severity no
    open link has. *)
Theorem statistics_severity_complete (s : DB) :
  exists st,
    statistics s = (Ok (mkResponse 200 (StatisticsBody st)), s) /\
    map fst (openVulnerabilitiesBySeverity st) = vulnerabilitySeverityEnum_enumValues /\
    (forall sev, js_get (openVulnerabilitiesBySeverity st) sev
                 = Some (open_count_by_severity s sev)) /\
    (forall sev,
       (forall l v, In l (assets_vulnerabilities s) -> l_status l = Open ->
                    In v (vulnerabilities s) -> v_id v = l_vulnerabilityId l ->
                    v_severity v <> sev) ->
       js_get (openVulnerabilitiesBySeverity st) sev = Some 0).
Proof.
  unfold statistics, try_catch, bind, read, reply, ret.
  set (G := group_count (open_severity_rows s)).
  set (init := [(Critical, 0); (High, 0); (Medium, 0); (Low, 0); (Informational, 0)]).
  exists (mkStatistics (Z.of_nat (List.length (assets s)))
            (Z.of_nat (List.length (vulnerabilities s)))
            (Z.of_nat (List.length (open_links s)))
            (fold_left severity_step G init)).
  split; [reflexivity|]. cbn [openVulnerabilitiesBySeverity].
  assert (Hinit : init = [(Critical, 0); (High, 0); (Medium, 0); (Low, 0); (Informational, 0)])
    by reflexivity.
  assert (Hget : forall sev, js_get (fold_left severity_step G init) sev
                             = Some (open_count_by_severity s sev)).
  { intros sev. rewrite (severity_fold_get sev (open_count_by_severity s sev) G).
    - destruct (existsb _ G) eqn:E; [reflexivity|].
      apply group_count_absent in E. unfold open_count_by_severity. rewrite E, Hinit.
      destruct sev; reflexivity.
    - intros g Hg Hk. exact (group_count_value _ sev g Hg Hk). }
  split; [|split; [exact Hget|]].
  - rewrite severity_fold_keys; [now rewrite Hinit|].
    intros k. rewrite Hinit. destruct k; simpl; tauto.
  - intros sev Hnone. rewrite Hget. f_equal. unfold open_count_by_severity.
    destruct (filter (option_severity_eqb (Some sev)) (open_severity_rows s)) as [|r rs] eqn:E;
      [reflexivity|exfalso].
    assert (Hr : In r (filter (option_severity_eqb (Some sev)) (open_severity_rows s)))
      by (rewrite E; now left).
    apply filter_In in Hr as [Hr Hq]. apply option_severity_eqb_spec in Hq. subst r.
    apply open_severity_rows_some in Hr as [l [v [Hl [Ho [Hv [Hid Hsev]]]]]].
    exact (Hnone l v Hl Ho Hv Hid Hsev).
Qed.

(** C7: deleting an existing asset answers 200 and removes exactly the
    links of that asset (the list of remaining links is the list of the
    others, in order, so [N] links go for the [N] the asset had); a removed
    link's id no longer resolves, and every link of another asset is still
    there.  The same holds for deleting an existing vulnerability.  Link
    ids are the table's primary key, hence distinct. *)
Theorem delete_parent_cascades (s : DB) (aid vid : Z) :
  NoDup (map l_id (assets_vulnerabilities s)) ->
  (find_asset aid s <> None ->
   exists r s', delete_asset (Some aid) s = (Ok r, s') /\ code r = 200 /\
                cascade_result (fun l => negb (l_assetId l =? aid)) s s') /\
  (find_vuln vid s <> None ->
   exists r s', delete_vulnerability (Some vid) s = (Ok r, s') /\ code r = 200 /\
                cascade_result (fun l => negb (l_vulnerabilityId l =? vid)) s s').
Proof.
  intros Hnd. split.
  - intros Ha. unfold delete_asset, try_catch, bind, delete_assets, reply, ret.
    destruct (filter (fun a => a_id a =? aid) (assets s)) as [|g gs] eqn:Hg.
    + exfalso. apply Ha. unfold find_asset. apply find_none_intro. intros x Hx.
      destruct (a_id x =? aid) eqn:E; [|reflexivity].
      assert (In x (filter (fun a => a_id a =? aid) (assets s))) by (apply filter_In; auto).
      rewrite Hg in H. contradiction.
    + do 2 eexists. split; [reflexivity|]. split; [reflexivity|].
      apply cascade_result_filter; [exact Hnd|]. cbn [assets_vulnerabilities].
      apply filter_ext. intros l. f_equal. rewrite <- Hg.
      apply existsb_all_equal.
      * rewrite Hg. discriminate.
      * intros x Hx. apply in_map_iff in Hx as [y [<- Hy]].
        apply filter_In in Hy as [_ Hy]. now apply Z.eqb_eq.
  - intros Hv. unfold delete_vulnerability, try_catch, bind, delete_vulnerabilities, reply, ret.
    destruct (filter (fun v => v_id v =? vid) (vulnerabilities s)) as [|g gs] eqn:Hg.
    + exfalso. apply Hv. unfold find_vuln. apply find_none_intro. intros x Hx.
      destruct (v_id x =? vid) eqn:E; [|reflexivity].
      assert (In x (filter (fun v => v_id v =? vid) (vulnerabilities s))) by (apply filter_In; auto).
      rewrite Hg in H. contradiction.
    + do 2 eexists. split; [reflexivity|]. split; [reflexivity|].
      apply cascade_result_filter; [exact Hnd|]. cbn [assets_vulnerabilities].
      apply filter_ext. intros l. f_equal. rewrite <- Hg.
      apply existsb_all_equal.
      * rewrite Hg. discriminate.
      * intros x Hx. apply in_map_iff in Hx as [y [<- Hy]].
        apply filter_In in Hy as [_ Hy]. now apply Z.eqb_eq.
Qed.

(** C8: for every store, [GET /recent-vulnerabilities] answers 200 with at
    most 5 rows, sorted by the link's [updatedAt] descending; each row is
    the projection of an open link together with a vulnerability row and
    an asset row it resolves to (name, severity, source, name, ip), so no
    returned row carries a null name: a link whose vulnerability or asset
    does not resolve is never returned. *)
Theorem recent_vulnerabilities_spec (s : DB) :
  exists rows,
    recent_vulnerabilities s = (Ok (mkResponse 200 (RecentVulnerabilities rows)), s) /\
    (List.length rows <= 5)%nat /\
    StronglySorted (desc_by r_lastSeenOrUpdatedAt) rows /\
    (forall r, In r rows ->
       exists l v a,
         In l (assets_vulnerabilities s) /\ l_status l = Open /\
         In v (vulnerabilities s) /\ v_id v = l_vulnerabilityId l /\
         In a (assets s) /\ a_id a = l_assetId l /\
         r = recent_row l (Some v) (Some a)).
Proof.
  unfold recent_vulnerabilities, try_catch, bind, read, reply, ret.
  eexists. split; [reflexivity|]. split; [|split].
  - rewrite filter_length_le. apply firstn_le_length.
  - apply StronglySorted_filter, StronglySorted_firstn, sort_desc_sorted.
  - intros r Hr. apply filter_In in Hr as [Hr Hk].
    apply in_firstn in Hr. apply (Permutation_in _ (sort_desc_perm _ _)) in Hr.
    apply recent_join_in in Hr as [l [ov [oa [Hl [Hov [Hoa ->]]]]]].
    unfold open_links in Hl. apply filter_In in Hl as [Hl Ho].
    destruct ov as [v|]; [|discriminate].
    destruct oa as [a|]; [|unfold recent_keep in Hk; simpl in Hk;
                           now rewrite andb_false_r in Hk].
    apply left_join_vuln_some in Hov as [Hv Hvid].
    apply left_join_asset_some in Hoa as [Ha Haid].
    exists l, v, a. repeat split; auto using is_open_true.
Qed.

(** ** Scoped lookup of a link *)

Lemma db_eta (s : DB) :
  mkDB (assets s) (vulnerabilities s) (assets_vulnerabilities s) (link_serial s) = s.
Proof. destruct s; reflexivity. Qed.




Lemma filter_all_false {A} (f : A -> bool) (xs : list A) :
  (forall x, In x xs -> f x = false) -> filter f xs = [].
Proof.
  induction xs as [|y ys IH]; simpl; intros H; [reflexivity|].
  rewrite (H y (or_introl eq_refl)). apply IH. auto.
Qed.

Lemma filter_negb_all_false {A} (f : A -> bool) (xs : list A) :
  (forall x, In x xs -> f x = false) -> filter (fun x => negb (f x)) xs = xs.
Proof.
  induction xs as [|y ys IH]; simpl; intros H; [reflexivity|].
  rewrite (H y (or_introl eq_refl)). simpl. f_equal. apply IH. auto.
Qed.





(** ** Uniqueness of the (assetId, vulnerabilityId) pair *)

Lemma is_pair_spec a v l : is_pair a v l = true <-> l_assetId l = a /\ l_vulnerabilityId l = v.
Proof. unfold is_pair. rewrite andb_true_iff, !Z.eqb_eq. tauto. Qed.

Lemma includes_status_of_string x :
  includes vulnerabilityStatusEnum_enumValues x = true -> status_of_string x <> None.
Proof.
  unfold includes. simpl.
  destruct (String.eqb x "open") eqn:E1; [apply String.eqb_eq in E1; subst; discriminate|].
  destruct (String.eqb x "remediated") eqn:E2; [apply String.eqb_eq in E2; subst; discriminate|].
  destruct (String.eqb x "ignored") eqn:E3; [apply String.eqb_eq in E3; subst; discriminate|].
  destruct (String.eqb x "pending_verification") eqn:E4;
    [apply String.eqb_eq in E4; subst; discriminate|].
  destruct (String.eqb x "archived") eqn:E5; [apply String.eqb_eq in E5; subst; discriminate|].
  discriminate.
Qed.

Lemma create_status_check b :
  create_status_ok b = true ->
  truthy_str (b_status b) && negb (includes vulnerabilityStatusEnum_enumValues
                                     (match b_status b with Some x => x | None => "" end)) = false.
Proof.
  unfold create_status_ok, truthy_str. destruct (b_status b) as [x|]; [|reflexivity].
  destruct (String.eqb x "") eqn:E; [reflexivity|]. simpl. intros ->. reflexivity.
Qed.

Lemma insert_link_pairs_unique v now s :
  pairs_unique s -> pairs_unique (snd (insert_link v now s)).
Proof.
  intros Hu. unfold insert_link.
  destruct (i_lastSeenAt v) as [seen|]; [|exact Hu].
  destruct (status_of_string (i_status v)) as [st|]; [|exact Hu].
  destruct (existsb (is_pair (i_assetId v) (i_vulnerabilityId v)) (assets_vulnerabilities s)) eqn:E;
    [exact Hu|].
  destruct (find_asset (i_assetId v) s), (find_vuln (i_vulnerabilityId v) s); try exact Hu.
  simpl. intros x y Hx Hy Ha Hv. apply in_app_or in Hx, Hy.
  assert (Hnew : forall z, In z (assets_vulnerabilities s) ->
                 l_assetId z = i_assetId v -> l_vulnerabilityId z = i_vulnerabilityId v -> False).
  { intros z Hz Hza Hzv. apply not_true_iff_false in E. apply E.
    apply existsb_exists. exists z. split; [exact Hz|]. now apply is_pair_spec. }
  destruct Hx as [Hx|[<-|[]]], Hy as [Hy|[<-|[]]]; simpl in *.
  - now apply Hu.
  - exfalso. exact (Hnew x Hx Ha Hv).
  - exfalso. exact (Hnew y Hy (eq_sym Ha) (eq_sym Hv)).
  - reflexivity.
Qed.

Lemma create_link_pairs_unique interfere now assetId b s :
  pairs_unique s -> (forall t, pairs_unique t -> pairs_unique (interfere t)) ->
  pairs_unique (snd (create_link interfere now assetId b s)).
Proof.
  intros Hu Hi. unfold create_link.
  destruct assetId as [aid|]; [|exact Hu].
  destruct (b_vulnerabilityId b) as [vid|]; [|exact Hu].
  destruct (_ && _); [exact Hu|].
  unfold try_catch, bind, read, reply, ret, interleave.
  destruct (find_asset aid s);
    [|unfold int4_guard; destruct (forallb int4_ok [aid]); exact Hu].
  destruct (find_vuln vid s);
    [|unfold int4_guard; destruct (forallb int4_ok [vid]); exact Hu].
  destruct (find_link_pair aid vid s); [exact Hu|].
  match goal with |- context [insert_link ?v ?n (interfere s)] =>
    pose proof (insert_link_pairs_unique v n (interfere s) (Hi s Hu)) as Hn;
    destruct (insert_link v n (interfere s)) as [[r|e] s1] end; exact Hn.
Qed.

(** C1: every create request keeps at most one link per (assetId,
    vulnerabilityId) pair, whatever concurrent requests commit meanwhile
    (provided they keep it too): no request ever adds a duplicate row.  A
    well-formed request (a vulnerabilityId, a status absent, empty or one of
    the five values, a [lastSeenAt] absent or a valid date; other bodies are
    validation errors) for a pair that already has a link answers 409 and
    leaves the store as it was, the foreign keys of the store holding.  When
    the link is created by a concurrent request between the existence check
    and the insert, the unique index rejects the insert and the route still
    answers 409, with the link table as the concurrent request left it. *)
Theorem create_link_unique_pair (interfere : DB -> DB) (now aid vid : Z)
    (b : CreateLinkBody) (s : DB) :
  b_vulnerabilityId b = Some vid ->
  create_status_ok b = true ->
  (links_referenced s -> forall l, find_link_pair aid vid s = Some l ->
     create_link interfere now (Some aid) b s
     = (Ok (mkResponse 409 (ConflictBody "This vulnerability is already linked to this asset."
                                         (Some l))), s)) /\
  (find_link_pair aid vid s = None -> find_asset aid s <> None -> find_vuln vid s <> None ->
   existsb (is_pair aid vid) (assets_vulnerabilities (interfere s)) = true ->
   create_date_ok b = true ->
   exists s',
     create_link interfere now (Some aid) b s
     = (Ok (mkResponse 409 (ConflictBody
              "This vulnerability is already linked to this asset (DB constraint)." None)), s') /\
     assets_vulnerabilities s' = assets_vulnerabilities (interfere s)) /\
  (pairs_unique s -> (forall t, pairs_unique t -> pairs_unique (interfere t)) ->
   forall assetId' b', pairs_unique (snd (create_link interfere now assetId' b' s))).
Proof.
  intros Hvid Hst. pose proof (create_status_check b Hst) as Hchk.
  split; [|split].
  - intros Href l Hl.
    destruct (find_some _ _ Hl) as [Hin Hp]. apply is_pair_spec in Hp as [Ha Hv].
    destruct (Href l Hin) as [HA HV]. rewrite Ha in HA. rewrite Hv in HV.
    unfold create_link. rewrite Hvid, Hchk.
    unfold try_catch, bind, read, reply, ret.
    destruct (find_asset aid s); [|contradiction].
    destruct (find_vuln vid s); [|contradiction].
    rewrite Hl. reflexivity.
  - intros Hnone HA HV Hrace Hdate.
    unfold create_link. rewrite Hvid, Hchk.
    unfold try_catch, bind, read, reply, ret, interleave.
    destruct (find_asset aid s); [|contradiction].
    destruct (find_vuln vid s); [|contradiction].
    rewrite Hnone. cbv beta iota. unfold insert_link. cbn [i_lastSeenAt i_status i_assetId i_vulnerabilityId].
    unfold create_date_ok in Hdate.
    destruct (status_of_string _) as [st|] eqn:Hs.
    2:{ exfalso. unfold create_status_ok, truthy_str in *.
        destruct (b_status b) as [x|]; [|discriminate].
        destruct (String.eqb x "") eqn:E; simpl in Hs; [discriminate|].
        simpl in Hst. apply includes_status_of_string in Hst. contradiction. }
    rewrite Hrace. destruct (b_lastSeenAt b) as [[t|]|]; [| discriminate |];
      eexists; split; reflexivity.
  - intros Hu Hi assetId' b'. now apply create_link_pairs_unique.
Qed.

(** ** A lost race inside the scan *)

Lemma scan_loop_app interfere now aid pre :
  forall rest n u s,
    scan_loop interfere now aid (pre ++ rest) n u s =
    match scan_loop interfere now aid pre n u s with
    | (Ok (n', u'), s1) => scan_loop interfere now aid rest n' u' s1
    | (Err e, s1) => (Err e, s1)
    end.
Proof.
  induction pre as [|v pre IH]; intros rest n u s; [reflexivity|].
  simpl. unfold bind, read, interleave. destruct (find_link_pair aid (v_id v) s) as [l|].
  - destruct (update_links _ _ _ s) as [[r|e] s1]; [apply IH|reflexivity].
  - destruct (insert_link _ _ _) as [[r|e] s1]; [apply IH|reflexivity].
Qed.

(** C3 (corrected): the scan has no recovery for a uniqueness violation.
    If candidate [vuln] has no link at its existence check but a concurrent
    request links it before the insert, the insert fails on the unique
    index, the whole request answers 500, and the link table keeps what
    the earlier candidates of the batch committed (and the concurrent
    link), with no further candidate processed. *)
Theorem scan_insert_race_fails (interfere : Z -> DB -> DB) (now aid : Z) (a : Asset)
    (s s1 : DB) (pre rest : list Vulnerability) (vuln : Vulnerability) (n u : Z) :
  find_asset aid s = Some a ->
  scan_candidates s = pre ++ vuln :: rest ->
  scan_loop interfere now aid pre 0 0 s = (Ok (n, u), s1) ->
  find_link_pair aid (v_id vuln) s1 = None ->
  existsb (is_pair aid (v_id vuln)) (assets_vulnerabilities (interfere (v_id vuln) s1)) = true ->
  exists s',
    scan_asset interfere now (Some aid) s
    = (Ok (mkResponse 500 (Message "Internal server error during simulated scan.")), s') /\
    assets_vulnerabilities s' = assets_vulnerabilities (interfere (v_id vuln) s1).
Proof.
  intros Ha Hc Hpre Hnone Hrace.
  unfold scan_asset, try_catch, bind at 1, read. rewrite Ha.
  unfold bind at 1. rewrite Hc.
  assert (Hne : exists c cs, pre ++ vuln :: rest = c :: cs)
    by (destruct pre as [|c cs]; simpl; eauto).
  destruct Hne as [c [cs Hcs]]. rewrite Hcs. unfold bind at 1. rewrite <- Hcs.
  rewrite scan_loop_app, Hpre. simpl scan_loop.
  unfold bind at 1, read. rewrite Hnone.
  unfold bind, interleave, insert_link. cbn [i_lastSeenAt i_status i_assetId i_vulnerabilityId].
  rewrite Hrace. eexists. split; reflexivity.
Qed.

(** C3 counterexample: scanning the server while a concurrent request
    links it to the low vulnerability (the first candidate, by id
    descending) makes the scan answer 500 instead of recovering and
    counting that link under [updatedLinks]. *)
Lemma scan_race_answers_500 :
  find_link_pair 1 2 sample_db = None /\
  existsb (is_pair 1 2) (assets_vulnerabilities (sample_race 2 sample_db)) = true /\
  fst (scan_asset sample_race 100 (Some 1) sample_db)
  = Ok (mkResponse 500 (Message "Internal server error during simulated scan.")).
Proof. split; [reflexivity|]. split; reflexivity. Qed.

(** ** The merge performed by a scan with no concurrent request *)

Lemma find_app {A} (p : A -> bool) (xs ys : list A) :
  find p (xs ++ ys) = match find p xs with Some x => Some x | None => find p ys end.
Proof. induction xs as [|x xs IH]; simpl; [reflexivity|]. destruct (p x); auto. Qed.

Lemma find_map {A} (p : A -> bool) (f : A -> A) (xs : list A) :
  (forall x, p (f x) = p x) -> find p (map f xs) = option_map f (find p xs).
Proof.
  intros Hp. induction xs as [|x xs IH]; simpl; [reflexivity|].
  rewrite Hp. destruct (p x); auto.
Qed.

Lemma find_none_existsb {A} (p : A -> bool) (xs : list A) :
  find p xs = None -> existsb p xs = false.
Proof.
  induction xs as [|x xs IH]; simpl; [reflexivity|].
  destruct (p x); [discriminate|]. exact IH.
Qed.

Lemma merged_fields aid now done x :
  l_id (merged aid now done x) = l_id x /\
  l_assetId (merged aid now done x) = l_assetId x /\
  l_vulnerabilityId (merged aid now done x) = l_vulnerabilityId x.
Proof. unfold merged. destruct (touched aid done x); simpl; auto. Qed.

Lemma touched_cons aid w done x :
  touched aid (w :: done) x
  = touched aid done x || ((l_assetId x =? aid) && (l_vulnerabilityId x =? w)).
Proof.
  unfold touched. simpl. destruct (l_assetId x =? aid); simpl; [|reflexivity].
  apply orb_comm.
Qed.

Lemma touched_fresh aid w done x :
  ~ In w done -> l_vulnerabilityId x = w -> touched aid done x = false.
Proof.
  intros Hw Hx. unfold touched. apply andb_false_iff. right.
  apply not_true_iff_false. intros H. apply existsb_exists in H as [y [Hy Hxy]].
  apply Z.eqb_eq in Hxy. subst. congruence.
Qed.

Lemma update_links_reopen (now : Timestamp) (l : Link) (t : DB) :
  exists r,
    update_links (fun x => l_id x =? l_id l)
      (mkLinkPatch (if status_eqb (l_status l) Open then None else Some "open"%string)
                   None None (Some (Some now))) now t
    = (Ok r, mkDB (assets t) (vulnerabilities t)
                  (map (fun x => if l_id x =? l_id l then reopen now l x else x)
                       (assets_vulnerabilities t))
                  (link_serial t)).
Proof.
  unfold update_links. destruct (status_eqb (l_status l) Open) eqn:E; simpl;
    eexists; do 2 f_equal; apply map_ext; intros x;
    destruct (l_id x =? l_id l); unfold reopen, apply_patch; rewrite ?E; reflexivity.
Qed.

Section ScanMerge.
Variables (s0 : DB) (aid : Z) (now : Timestamp).
Hypothesis Hnd : NoDup (map l_id (assets_vulnerabilities s0)).
Hypothesis Hser : forall x, In x (assets_vulnerabilities s0) -> l_id x < link_serial s0.
Hypothesis Hpu : pairs_unique s0.
Hypothesis Hasset : find_asset aid s0 <> None.

Lemma scan_inv_start : scan_inv s0 aid now [] s0.
Proof.
  exists []. rewrite app_nil_r. split; [|split; [intros ? []|split; [lia|split; reflexivity]]].
  rewrite <- (map_id (assets_vulnerabilities s0)) at 1. apply map_ext. intros x.
  unfold merged, touched. simpl. now rewrite andb_false_r.
Qed.

Lemma scan_inv_find done t w :
  scan_inv s0 aid now done t -> ~ In w done ->
  find_link_pair aid w t = find_link_pair aid w s0.
Proof.
  intros [extra [Ht [Hx _]]] Hw. unfold find_link_pair. rewrite Ht, find_app.
  rewrite find_map.
  2:{ intros x. destruct (merged_fields aid now done x) as [_ [H1 H2]].
      unfold is_pair. now rewrite H1, H2. }
  destruct (find (is_pair aid w) (assets_vulnerabilities s0)) as [l|] eqn:E; simpl.
  - apply find_some in E as [_ Hp]. apply is_pair_spec in Hp as [_ Hv].
    unfold merged. now rewrite (touched_fresh aid w done l Hw Hv).
  - apply find_none_intro. intros x Hin. destruct (Hx x Hin) as [_ [Hd _]].
    destruct (is_pair aid w x) eqn:Ep; [|reflexivity].
    apply is_pair_spec in Ep as [_ Hv]. rewrite Hv in Hd. contradiction.
Qed.

Lemma scan_inv_found done t w l :
  scan_inv s0 aid now done t -> ~ In w done -> find_link_pair aid w s0 = Some l ->
  scan_inv s0 aid now (w :: done)
    (mkDB (assets t) (vulnerabilities t)
          (map (fun x => if l_id x =? l_id l then reopen now l x else x)
               (assets_vulnerabilities t))
          (link_serial t)).
Proof.
  intros [extra [Ht [Hx [Hs Hp]]]] Hw Hl.
  destruct (find_some _ _ Hl) as [Hin Hpl]. apply is_pair_spec in Hpl as [Hla Hlv].
  pose proof (Hser l Hin) as Hlt.
  exists extra. cbn [assets_vulnerabilities assets vulnerabilities link_serial].
  split; [|split; [|split; [exact Hs|exact Hp]]].
  - rewrite Ht, map_app, map_map. f_equal.
    + apply map_ext_in. intros x Hxin.
      destruct (merged_fields aid now done x) as [Hi _]. rewrite Hi.
      destruct (l_id x =? l_id l) eqn:E.
      * apply Z.eqb_eq in E. rewrite (NoDup_map_same l_id _ x l Hnd Hxin Hin E).
        unfold merged. rewrite (touched_fresh aid w done l Hw Hlv).
        rewrite touched_cons, Hla, Hlv, !Z.eqb_refl, orb_true_r.
        unfold reopen, refresh. destruct (status_eqb (l_status l) Open) eqn:Es; [|reflexivity].
        unfold is_open in *. apply is_open_true in Es. now rewrite Es.
      * unfold merged. rewrite touched_cons.
        destruct ((l_assetId x =? aid) && (l_vulnerabilityId x =? w)) eqn:Ex;
          [|now rewrite orb_false_r].
        exfalso. apply andb_true_iff in Ex as [Ex1 Ex2].
        apply Z.eqb_eq in Ex1, Ex2.
        rewrite (Hpu x l Hxin Hin ltac:(congruence) ltac:(congruence)) in E.
        now rewrite Z.eqb_refl in E.
    + rewrite <- (map_id extra) at 2. apply map_ext_in. intros x Hxin.
      destruct (Hx x Hxin) as [_ [_ Hge]].
      destruct (l_id x =? l_id l) eqn:E; [|reflexivity].
      apply Z.eqb_eq in E. lia.
  - intros x Hxin. destruct (Hx x Hxin) as [H1 [H2 H3]]. repeat split; auto. now right.
Qed.

Lemma scan_inv_inserted done t w :
  scan_inv s0 aid now done t -> ~ In w done -> find_link_pair aid w s0 = None ->
  find_vuln w s0 <> None ->
  insert_link (mkLinkInsert aid w "open" None None (Some now)) now t
  = (Ok (mkLink (link_serial t) aid w Open now None None now),
     mkDB (assets t) (vulnerabilities t)
          (assets_vulnerabilities t ++ [mkLink (link_serial t) aid w Open now None None now])
          (link_serial t + 1)) /\
  scan_inv s0 aid now (w :: done)
    (mkDB (assets t) (vulnerabilities t)
          (assets_vulnerabilities t ++ [mkLink (link_serial t) aid w Open now None None now])
          (link_serial t + 1)).
Proof.
  intros Hinv Hw Hnone Hv.
  pose proof (scan_inv_find done t w Hinv Hw) as Hf. rewrite Hnone in Hf.
  destruct Hinv as [extra [Ht [Hx [Hs [Hpa Hpv]]]]].
  split.
  - unfold insert_link. cbn [i_lastSeenAt i_status i_assetId i_vulnerabilityId].
    unfold find_link_pair in Hf. rewrite (find_none_existsb _ _ Hf).
    unfold find_asset, find_vuln in *. rewrite Hpa, Hpv.
    destruct (find (fun a => a_id a =? aid) (assets s0)); [|contradiction].
    destruct (find (fun v => v_id v =? w) (vulnerabilities s0)); [|contradiction].
    reflexivity.
  - exists (extra ++ [mkLink (link_serial t) aid w Open now None None now]).
    cbn [assets_vulnerabilities assets vulnerabilities link_serial].
    split; [|split; [|split; [lia|split; assumption]]].
    + rewrite Ht, <- app_assoc. f_equal. apply map_ext_in. intros x Hxin.
      unfold merged. rewrite touched_cons.
      destruct ((l_assetId x =? aid) && (l_vulnerabilityId x =? w)) eqn:Ex;
        [|now rewrite orb_false_r].
      exfalso. unfold find_link_pair in Hnone.
      pose proof (find_none _ _ Hnone x Hxin) as Hfx. unfold is_pair in Hfx. congruence.
    + intros x Hxin. apply in_app_or in Hxin as [Hxin|[<-|[]]].
      * destruct (Hx x Hxin) as [H1 [H2 H3]]. repeat split; auto. now right.
      * simpl. repeat split; [now left|lia].
Qed.
Lemma scan_loop_merge (vs : list Vulnerability) :
  forall done t n u,
  scan_inv s0 aid now done t -> NoDup (map v_id vs) ->
  (forall v, In v vs -> ~ In (v_id v) done) ->
  (forall v, In v vs -> find_vuln (v_id v) s0 <> None) ->
  exists t', scan_loop alone now aid vs n u t
    = (Ok (n + Z.of_nat (List.length (filter (fun v => negb (has_link s0 aid v)) vs)),
           u + Z.of_nat (List.length (filter (has_link s0 aid) vs))), t') /\
    scan_inv s0 aid now (rev (map v_id vs) ++ done) t'.
Proof.
  induction vs as [|v vs IH]; intros done t n u Hinv Hnd' Hfresh Hvok.
  - exists t. simpl. rewrite !Z.add_0_r. split; [reflexivity|exact Hinv].
  - inversion Hnd' as [|? ? Hvn Hnds]; subst.
    assert (Hw : ~ In (v_id v) done) by (apply Hfresh; now left).
    assert (Hfresh' : forall v', In v' vs -> ~ In (v_id v') (v_id v :: done)).
    { intros v' Hv' [He|Hin].
      - apply Hvn. rewrite He. now apply in_map.
      - exact (Hfresh v' (or_intror Hv') Hin). }
    assert (Hvok' : forall v', In v' vs -> find_vuln (v_id v') s0 <> None)
      by (intros; apply Hvok; now right).
    replace (rev (map v_id (v :: vs)) ++ done) with (rev (map v_id vs) ++ v_id v :: done)
      by (simpl; now rewrite <- app_assoc).
    cbn [scan_loop]. unfold bind at 1, read.
    rewrite (scan_inv_find done t (v_id v) Hinv Hw).
    cbn [filter].
    destruct (find_link_pair aid (v_id v) s0) as [l|] eqn:Hf.
    + assert (Hh : has_link s0 aid v = true) by (unfold has_link; now rewrite Hf).
      rewrite Hh. destruct (update_links_reopen now l t) as [r Hr]. unfold bind at 1. rewrite Hr.
      destruct (IH (v_id v :: done) _ n (u + 1)
                  (scan_inv_found done t (v_id v) l Hinv Hw Hf) Hnds Hfresh' Hvok')
        as [t' [Ht' Hinv']].
      exists t'. rewrite Ht'. split; [|exact Hinv'].
      cbn [negb List.length]. do 3 f_equal. lia.
    + destruct (scan_inv_inserted done t (v_id v) Hinv Hw Hf (Hvok v (or_introl eq_refl)))
        as [Hins Hinv1].
      assert (Hh : has_link s0 aid v = false) by (unfold has_link; now rewrite Hf).
      rewrite Hh. unfold bind at 1, interleave. change (alone (v_id v) t) with t. unfold bind at 1. rewrite Hins.
      destruct (IH (v_id v :: done) _ (n + 1) u Hinv1 Hnds Hfresh' Hvok')
        as [t' [Ht' Hinv']].
      exists t'. cbv beta iota. rewrite Ht'. split; [|exact Hinv'].
      cbn [negb List.length]. do 3 f_equal. lia.
Qed.
End ScanMerge.

(** C4: a scan of an existing asset, run with no concurrent request,
    merges every candidate that already has a Link to the asset: that Link
    [l] ends with status [open] (reopened when it was not [open], kept
    when it already was), [lastSeenAt] set to the scan time and, through
    the table's [$onUpdate], [updatedAt] set to it too, every other field
    kept. Such a candidate [V] is counted under [updatedLinks]:
    [updatedLinks] is the number of candidates that had a Link before the
    scan and [newlyLinked] the number that had none. The store is assumed
    well formed: link ids distinct and below the serial counter, pairs
    unique, vulnerability ids distinct. *)
Theorem scan_reopens_existing_link (now : Timestamp) (aid : Z) (a : Asset) (s : DB)
    (V : Vulnerability) (l : Link) :
  NoDup (map l_id (assets_vulnerabilities s)) ->
  (forall x, In x (assets_vulnerabilities s) -> l_id x < link_serial s) ->
  pairs_unique s ->
  NoDup (map v_id (vulnerabilities s)) ->
  find_asset aid s = Some a ->
  In V (scan_candidates s) ->
  In l (assets_vulnerabilities s) -> l_assetId l = aid -> l_vulnerabilityId l = v_id V ->
  exists s' n u,
    scan_asset alone now (Some aid) s
      = (Ok (mkResponse 200 (ScanResult "Simulated scan completed." aid n u
                               (Z.of_nat (List.length (scan_candidates s))))), s') /\
    find_link_by_id (l_id l) s' = Some (refresh now l) /\
    l_status (refresh now l) = Open /\ l_lastSeenAt (refresh now l) = now /\
    has_link s aid V = true /\
    u = Z.of_nat (List.length (filter (has_link s aid) (scan_candidates s))) /\
    n = Z.of_nat (List.length (filter (fun v => negb (has_link s aid v)) (scan_candidates s))).
Proof.
  intros Hnd Hser Hpu Hndv Ha HV Hl Hla Hlv.
  unfold scan_asset, try_catch, bind, read, reply, ret. rewrite Ha.
  pose proof (sort_desc_perm v_id (vulnerabilities s)) as Hperm.
  assert (Hcin : forall v, In v (scan_candidates s) -> In v (vulnerabilities s)).
  { intros v Hv. apply (Permutation_in _ Hperm). exact (in_firstn _ _ _ Hv). }
  assert (Hcnd : NoDup (map v_id (scan_candidates s))).
  { apply NoDup_map_firstn. apply (Permutation_NoDup (Permutation_map v_id (Permutation_sym Hperm))).
    exact Hndv. }
  assert (Hvok : forall v, In v (scan_candidates s) -> find_vuln (v_id v) s <> None).
  { intros v Hv Hn. unfold find_vuln in Hn.
    pose proof (find_none _ _ Hn v (Hcin v Hv)) as E. simpl in E. now rewrite Z.eqb_refl in E. }
  destruct (scan_loop_merge s aid now Hnd Hser Hpu ltac:(congruence) (scan_candidates s) [] s 0 0
              (scan_inv_start s aid now) Hcnd (fun _ _ H => H) Hvok) as [t' [Hrun Hinv]].
  assert (Hh : has_link s aid V = true).
  { unfold has_link, find_link_pair.
    destruct (find (is_pair aid (v_id V)) (assets_vulnerabilities s)) eqn:E; [reflexivity|].
    pose proof (find_none _ _ E l Hl) as E'. unfold is_pair in E'.
    rewrite Hla, Hlv, !Z.eqb_refl in E'. discriminate. }
  assert (Hfind : find_link_by_id (l_id l) t' = Some (refresh now l)).
  { destruct Hinv as [extra [Ht _]]. unfold find_link_by_id. rewrite Ht, find_app.
    rewrite find_map by (intros x; now rewrite (proj1 (merged_fields aid now _ x))).
    rewrite (find_unique_key l_id l _ Hnd Hl). simpl. unfold merged, touched.
    rewrite Hla, Z.eqb_refl, app_nil_r. simpl.
    replace (existsb (Z.eqb (l_vulnerabilityId l)) (rev (map v_id (scan_candidates s))))
      with true; [reflexivity|].
    symmetry. apply existsb_exists. exists (v_id V). split.
    - rewrite <- in_rev. now apply in_map.
    - rewrite Hlv. apply Z.eqb_refl. }
  destruct (scan_candidates s) as [|c cs] eqn:Hc; [destruct HV|].
  rewrite Hrun.
  eexists t', _, _. split; [reflexivity|].
  repeat split; try assumption; lia.
Qed.

(** * The theorems at the sample store *)

Ltac nodup_Z := repeat (apply NoDup_cons; [simpl; intuition lia|]); apply NoDup_nil.

Lemma create_link_unique_pair_witness :
  b_vulnerabilityId (mkCreateLinkBody (Some 1) None None None None) = Some 1 /\
  create_status_ok (mkCreateLinkBody (Some 1) None None None None) = true /\
  find_link_pair 1 1 sample_db = Some sample_link /\
  create_link (fun t => t) 7 (Some 1) (mkCreateLinkBody (Some 1) None None None None) sample_db
  = (Ok (mkResponse 409 (ConflictBody "This vulnerability is already linked to this asset."
                                      (Some sample_link))), sample_db).
Proof.
  split; [reflexivity|]. split; [reflexivity|]. split; [reflexivity|].
  apply (proj1 (create_link_unique_pair (fun t => t) 7 1 1
                  (mkCreateLinkBody (Some 1) None None None None) sample_db eq_refl eq_refl)).
  - intros x [<-|[]]. split; simpl; discriminate.
  - reflexivity.
Defined.


Lemma scan_insert_race_fails_witness :
  scan_candidates sample_db = [] ++ sample_low :: [sample_critical] /\
  find_link_pair 1 2 sample_db = None /\
  exists s',
    scan_asset sample_race 100 (Some 1) sample_db
    = (Ok (mkResponse 500 (Message "Internal server error during simulated scan.")), s') /\
    assets_vulnerabilities s' = assets_vulnerabilities (sample_race 2 sample_db).
Proof.
  split; [vm_compute; reflexivity|]. split; [reflexivity|].
  apply (scan_insert_race_fails sample_race 100 1 sample_server sample_db sample_db
           [] [sample_critical] sample_low 0 0).
  - reflexivity.
  - vm_compute. reflexivity.
  - reflexivity.
  - reflexivity.
  - vm_compute. reflexivity.
Defined.

Lemma scan_reopens_existing_link_witness :
  l_status sample_link = Remediated /\
  exists s' n u,
    scan_asset alone 100 (Some 1) sample_db
      = (Ok (mkResponse 200 (ScanResult "Simulated scan completed." 1 n u
                               (Z.of_nat (List.length (scan_candidates sample_db))))), s') /\
    find_link_by_id (l_id sample_link) s' = Some (refresh 100 sample_link) /\
    l_status (refresh 100 sample_link) = Open /\ l_lastSeenAt (refresh 100 sample_link) = 100 /\
    has_link sample_db 1 sample_critical = true /\
    u = Z.of_nat (List.length (filter (has_link sample_db 1) (scan_candidates sample_db))) /\
    n = Z.of_nat (List.length (filter (fun v => negb (has_link sample_db 1 v))
                                      (scan_candidates sample_db))).
Proof.
  split; [reflexivity|].
  apply (scan_reopens_existing_link 100 1 sample_server sample_db sample_critical sample_link).
  - simpl. nodup_Z.
  - intros x [<-|[]]. simpl. lia.
  - intros x y [<-|[]] [<-|[]] _ _. reflexivity.
  - simpl. nodup_Z.
  - reflexivity.
  - vm_compute. right. left. reflexivity.
  - simpl. now left.
  - reflexivity.
  - reflexivity.
Defined.

Lemma scan_asset_no_vulnerabilities_witness :
  find_asset 1 (mkDB [sample_server] [] [] 1) = Some sample_server /\
  vulnerabilities (mkDB [sample_server] [] [] 1) = [] /\
  scan_asset alone 100 (Some 1) (mkDB [sample_server] [] [] 1)
  = (Ok (mkResponse 200 (ScanResult no_vulnerabilities_message 1 0 0 0)),
     mkDB [sample_server] [] [] 1).
Proof.
  split; [reflexivity|]. split; [reflexivity|].
  apply (scan_asset_no_vulnerabilities alone 100 1 sample_server); reflexivity.
Defined.

Lemma delete_parent_cascades_witness :
  NoDup (map l_id (assets_vulnerabilities sample_db)) /\
  find_asset 1 sample_db <> None /\ find_vuln 1 sample_db <> None /\
  (find_asset 1 sample_db <> None ->
   exists r s', delete_asset (Some 1) sample_db = (Ok r, s') /\ code r = 200 /\
                cascade_result (fun l => negb (l_assetId l =? 1)) sample_db s') /\
  (find_vuln 1 sample_db <> None ->
   exists r s', delete_vulnerability (Some 1) sample_db = (Ok r, s') /\ code r = 200 /\
                cascade_result (fun l => negb (l_vulnerabilityId l =? 1)) sample_db s').
Proof.
  assert (Hnd : NoDup (map l_id (assets_vulnerabilities sample_db))) by (simpl; nodup_Z).
  split; [exact Hnd|]. split; [simpl; discriminate|]. split; [simpl; discriminate|].
  exact (delete_parent_cascades sample_db 1 1 Hnd).
Defined.

Lemma scan_asset_counters_witness :
  scan_asset alone 100 (Some 1) sample_db
  = (Ok (mkResponse 200 (ScanResult "Simulated scan completed." 1 1 1 2)),
     snd (scan_asset alone 100 (Some 1) sample_db)) /\
  1 + 1 = 2 /\ 2 = Z.of_nat (List.length (scan_candidates sample_db)) /\ 2 <= 5.
Proof.
  assert (H : scan_asset alone 100 (Some 1) sample_db
              = (Ok (mkResponse 200 (ScanResult "Simulated scan completed." 1 1 1 2)),
                 snd (scan_asset alone 100 (Some 1) sample_db))) by (vm_compute; reflexivity).
  split; [exact H|].
  exact (scan_asset_counters alone 100 (Some 1) sample_db _ _ 1 1 1 2 H).
Defined.

Lemma scan_asset_leaves_parents_witness :
  (forall k t, same_parents t (alone k t)) /\
  same_parents sample_db (snd (scan_asset alone 100 (Some 1) sample_db)).
Proof.
  assert (H : forall k t, same_parents t (alone k t)) by (intros; split; reflexivity).
  split; [exact H|].
  exact (scan_asset_leaves_parents alone 100 (Some 1) sample_db H).
Defined.

(** * Further properties of the routes *)

(** ** Top-k selections *)

Lemma StronglySorted_app_rel {A} (R : A -> A -> Prop) (l1 l2 : list A) :
  StronglySorted R (l1 ++ l2) -> forall a b, In a l1 -> In b l2 -> R a b.
Proof.
  induction l1 as [|x xs IH]; simpl; [tauto|].
  intros H a b [<-|Ha] Hb; inversion H as [|? ? Hs Hall]; subst.
  - rewrite Forall_forall in Hall. apply Hall. apply in_or_app. now right.
  - exact (IH Hs a b Ha Hb).
Qed.

Lemma StronglySorted_map {A B} (R : B -> B -> Prop) (f : A -> B) (xs : list A) :
  StronglySorted (fun a b => R (f a) (f b)) xs -> StronglySorted R (map f xs).
Proof.
  induction xs as [|x xs IH]; simpl; intros H; [constructor|].
  inversion H as [|? ? Hs Hall]; subst. constructor; [now apply IH|].
  rewrite Forall_forall in *. intros y Hy. apply in_map_iff in Hy as [z [<- Hz]].
  now apply Hall.
Qed.

(** an element left out of the first [n] of a descending sort is not
    above any element kept *)
Lemma firstn_sort_desc_top {A} (key : A -> Z) (n : nat) (xs : list A) (x y : A) :
  In x xs -> ~ In x (firstn n (sort_desc key xs)) -> In y (firstn n (sort_desc key xs)) ->
  key x <= key y.
Proof.
  intros Hx Hnx Hy.
  assert (Hx' : In x (sort_desc key xs))
    by exact (Permutation_in _ (Permutation_sym (sort_desc_perm key xs)) Hx).
  pose proof (sort_desc_sorted key xs) as Hs.
  rewrite <- (firstn_skipn n (sort_desc key xs)) in Hx', Hs.
  apply in_app_or in Hx' as [Hin|Hin]; [contradiction|].
  exact (StronglySorted_app_rel _ _ _ Hs y x Hy Hin).
Qed.

Lemma firstn_sort_desc_length {A} (key : A -> Z) (n : nat) (xs : list A) :
  List.length (firstn n (sort_desc key xs)) = Nat.min n (List.length xs).
Proof.
  rewrite length_firstn. f_equal. apply Permutation_length, sort_desc_perm.
Qed.

(** ** Sums of the statistics *)


Lemma js_sum (acc : list (Severity * Z)) :
  NoDup (map fst acc) ->
  zsum (map snd acc)
  = zsum (map (fun k => match js_get acc k with Some v => v | None => 0 end) (map fst acc)).
Proof.
  induction acc as [|[k v] rest IH]; simpl; intros Hnd; [reflexivity|].
  inversion Hnd as [|? ? Hk Hnd']; subst.
  unfold zsum in *. simpl. rewrite severity_eqb_refl. f_equal. rewrite (IH Hnd').
  f_equal. apply map_ext_in. intros k' Hk'.
  destruct (severity_eqb k' k) eqn:E; [|reflexivity].
  apply severity_eqb_spec in E. subst. contradiction.
Qed.

Lemma severity_counts_sum (rows : list (option Severity)) :
  (forall r, In r rows -> r <> None) ->
  zsum (map (fun sev => Z.of_nat (List.length (filter (option_severity_eqb (Some sev)) rows)))
            vulnerabilitySeverityEnum_enumValues)
  = Z.of_nat (List.length rows).
Proof.
  induction rows as [|r rs IH]; intros Hr; [reflexivity|].
  assert (IH' := IH (fun r' H => Hr r' (or_intror H))).
  unfold zsum, vulnerabilitySeverityEnum_enumValues in *. cbn [map fold_right] in *.
  destruct r as [x|]; [|exfalso; exact (Hr None (or_introl eq_refl) eq_refl)].
  destruct x; cbn [filter option_severity_eqb severity_eqb List.length];
    rewrite ?Nat2Z.inj_succ; lia.
Qed.

Lemma filter_unique_key (vs : list Vulnerability) (id : Z) (v : Vulnerability) :
  NoDup (map v_id vs) -> find (fun v' => v_id v' =? id) vs = Some v ->
  filter (fun v' => v_id v' =? id) vs = [v].
Proof.
  induction vs as [|w ws IH]; simpl; intros Hnd Hf; [discriminate|].
  inversion Hnd as [|? ? Hw Hws]; subst.
  destruct (v_id w =? id) eqn:E.
  - injection Hf as <-. f_equal. apply filter_all_false.
    intros x Hx. apply Z.eqb_eq in E. destruct (v_id x =? id) eqn:E'; [|reflexivity].
    apply Z.eqb_eq in E'. exfalso. apply Hw. rewrite E, <- E'. now apply in_map.
  - now apply IH.
Qed.

Lemma left_join_vuln_found (s : DB) (l : Link) (v : Vulnerability) :
  NoDup (map v_id (vulnerabilities s)) -> find_vuln (l_vulnerabilityId l) s = Some v ->
  left_join_vuln s l = [Some v].
Proof.
  intros Hnd Hf. unfold left_join_vuln. now rewrite (filter_unique_key _ _ v Hnd Hf).
Qed.

Lemma open_severity_rows_length (s : DB) :
  NoDup (map v_id (vulnerabilities s)) ->
  (forall l, In l (open_links s) -> find_vuln (l_vulnerabilityId l) s <> None) ->
  List.length (open_severity_rows s) = List.length (open_links s) /\
  (forall r, In r (open_severity_rows s) -> r <> None).
Proof.
  intros Hnd Hfk. unfold open_severity_rows.
  induction (open_links s) as [|l ls IH]; simpl; [split; [reflexivity|tauto]|].
  destruct (find_vuln (l_vulnerabilityId l) s) as [v|] eqn:Ef;
    [|exfalso; exact (Hfk l (or_introl eq_refl) Ef)].
  rewrite (left_join_vuln_found s l v Hnd Ef). simpl.
  destruct (IH (fun l' H => Hfk l' (or_intror H))) as [Hl Hs].
  split; [now rewrite Hl|]. intros r [<-|Hr]; [discriminate|now apply Hs].
Qed.

(** ** The dashboard *)

(** The totals of [GET /statistics] count the asset rows, the
    vulnerability rows and the open link rows; when every open link has
    its vulnerability (vulnerability ids being the primary key), the five
    per-severity counts add up to the number of open link rows. *)
Theorem statistics_totals (s : DB) :
  NoDup (map v_id (vulnerabilities s)) ->
  (forall l, In l (open_links s) -> find_vuln (l_vulnerabilityId l) s <> None) ->
  exists st,
    statistics s = (Ok (mkResponse 200 (StatisticsBody st)), s) /\
    totalAssets st = Z.of_nat (List.length (assets s)) /\
    totalVulnerabilities st = Z.of_nat (List.length (vulnerabilities s)) /\
    totalOpenVulnerabilityInstances st = Z.of_nat (List.length (open_links s)) /\
    zsum (map snd (openVulnerabilitiesBySeverity st)) = totalOpenVulnerabilityInstances st.
Proof.
  intros Hnd Hfk.
  unfold statistics, try_catch, bind, read, reply, ret.
  set (G := group_count (open_severity_rows s)).
  set (init := [(Critical, 0); (High, 0); (Medium, 0); (Low, 0); (Informational, 0)]).
  exists (mkStatistics (Z.of_nat (List.length (assets s)))
            (Z.of_nat (List.length (vulnerabilities s)))
            (Z.of_nat (List.length (open_links s)))
            (fold_left severity_step G init)).
  split; [reflexivity|]. cbn [openVulnerabilitiesBySeverity totalAssets totalVulnerabilities
                              totalOpenVulnerabilityInstances].
  split; [reflexivity|]. split; [reflexivity|]. split; [reflexivity|].
  assert (Hinit : init = [(Critical, 0); (High, 0); (Medium, 0); (Low, 0); (Informational, 0)])
    by reflexivity.
  assert (Hget : forall sev, js_get (fold_left severity_step G init) sev
                             = Some (open_count_by_severity s sev)).
  { intros sev. rewrite (severity_fold_get sev (open_count_by_severity s sev) G).
    - destruct (existsb _ G) eqn:E; [reflexivity|].
      apply group_count_absent in E. unfold open_count_by_severity. rewrite E, Hinit.
      destruct sev; reflexivity.
    - intros g Hg Hk. exact (group_count_value _ sev g Hg Hk). }
  assert (Hkeys : map fst (fold_left severity_step G init) = vulnerabilitySeverityEnum_enumValues).
  { rewrite severity_fold_keys; [now rewrite Hinit|].
    intros k. rewrite Hinit. destruct k; simpl; tauto. }
  rewrite js_sum by (rewrite Hkeys; repeat (apply NoDup_cons; [simpl; intuition discriminate|]); apply NoDup_nil).
  rewrite Hkeys.
  erewrite map_ext by (intros k; now rewrite Hget).
  destruct (open_severity_rows_length s Hnd Hfk) as [Hlen Hsome].
  unfold open_count_by_severity. rewrite (severity_counts_sum _ Hsome), Hlen. reflexivity.
Qed.

(** [GET /recent-vulnerabilities]: an open link row left out of the
    answer although its vulnerability and asset names are non-empty was
    not updated after any row of the answer, i.e. the answer keeps the
    most recently updated rows the filter lets through, among the five
    latest. *)
Theorem recent_vulnerabilities_newest (s : DB) :
  exists rows,
    recent_vulnerabilities s = (Ok (mkResponse 200 (RecentVulnerabilities rows)), s) /\
    (forall r, In r (recent_join s) -> recent_keep r = true -> ~ In r rows ->
     forall r', In r' rows -> r_lastSeenOrUpdatedAt r <= r_lastSeenOrUpdatedAt r').
Proof.
  eexists. split; [reflexivity|].
  intros r Hr Hk Hn r' Hr'. apply filter_In in Hr' as [Hr' _].
  apply (firstn_sort_desc_top r_lastSeenOrUpdatedAt 5 (recent_join s) r r' Hr); [|exact Hr'].
  intros Hin. apply Hn. apply filter_In. auto.
Qed.

(** [GET /recent-assets] answers 200 with [min 5 n] rows for [n] assets,
    each the projection of an asset, newest [createdAt] first, and an
    asset whose row is not in the answer was not created after any asset
    that is. *)
Theorem recent_assets_newest (s : DB) :
  exists rows,
    recent_assets s = (Ok (mkRowResponse 200 (RecentAssets rows)), s) /\
    List.length rows = Nat.min 5 (List.length (assets s)) /\
    StronglySorted (desc_by ra_createdAt) rows /\
    (forall r, In r rows -> exists a, In a (assets s) /\ r = recent_asset a) /\
    (forall a, In a (assets s) -> ~ In (recent_asset a) rows ->
     forall r, In r rows -> a_createdAt a <= ra_createdAt r).
Proof.
  eexists. split; [reflexivity|].
  split; [rewrite length_map; apply firstn_sort_desc_length|].
  split.
  - apply StronglySorted_map. apply StronglySorted_firstn. apply sort_desc_sorted.
  - split.
    + intros r Hr. apply in_map_iff in Hr as [a [<- Ha]]. exists a. split; [|reflexivity].
      apply (Permutation_in _ (sort_desc_perm a_createdAt (assets s))).
      exact (in_firstn _ _ _ Ha).
    + intros a Ha Hn r Hr. apply in_map_iff in Hr as [b [<- Hb]].
      apply (firstn_sort_desc_top a_createdAt 5 (assets s) a b Ha); [|exact Hb].
      intros Hin. apply Hn. now apply in_map.
Qed.

(** ** The link-merging scan *)

(** The scan's candidates are the [min 5 n] vulnerabilities of highest
    id: a vulnerability that is not a candidate has an id no greater than
    every candidate's. *)
Theorem scan_candidates_top (s : DB) :
  List.length (scan_candidates s) = Nat.min 5 (List.length (vulnerabilities s)) /\
  (forall v c, In v (vulnerabilities s) -> ~ In v (scan_candidates s) ->
   In c (scan_candidates s) -> v_id v <= v_id c).
Proof.
  split; [apply firstn_sort_desc_length|].
  intros v c Hv Hn Hc. exact (firstn_sort_desc_top v_id 5 _ v c Hv Hn Hc).
Qed.

Lemma existsb_map_pair (f : Link -> Link) (aid w : Z) (xs : list Link) :
  (forall x, l_assetId (f x) = l_assetId x /\ l_vulnerabilityId (f x) = l_vulnerabilityId x) ->
  existsb (is_pair aid w) (map f xs) = existsb (is_pair aid w) xs.
Proof.
  intros Hf. induction xs as [|x xs IH]; simpl; [reflexivity|].
  unfold is_pair at 1 3. destruct (Hf x) as [-> ->]. now rewrite IH.
Qed.

Lemma reopen_fields (now : Timestamp) (l : Link) (x : Link) :
  l_assetId ((fun x => if l_id x =? l_id l then reopen now l x else x) x) = l_assetId x /\
  l_vulnerabilityId ((fun x => if l_id x =? l_id l then reopen now l x else x) x)
  = l_vulnerabilityId x.
Proof. cbv beta. destruct (l_id x =? l_id l); simpl; auto. Qed.

Lemma find_some_existsb {A} (p : A -> bool) (xs : list A) (x : A) :
  find p xs = Some x -> existsb p xs = true.
Proof.
  intros H. apply existsb_exists. exists x. exact (find_some _ _ H).
Qed.

Lemma existsb_find_some {A} (p : A -> bool) (xs : list A) :
  existsb p xs = true -> exists x, find p xs = Some x.
Proof.
  induction xs as [|y ys IH]; simpl; [discriminate|].
  destruct (p y); [eauto|exact IH].
Qed.

Lemma insert_link_keeps_pair (v : LinkInsert) (now : Timestamp) (t : DB) (aid w : Z) :
  existsb (is_pair aid w) (assets_vulnerabilities t) = true ->
  existsb (is_pair aid w) (assets_vulnerabilities (snd (insert_link v now t))) = true.
Proof.
  intros H. unfold insert_link.
  destruct (i_lastSeenAt v); [|exact H].
  destruct (status_of_string (i_status v)); [|exact H].
  destruct (existsb (is_pair (i_assetId v) (i_vulnerabilityId v)) (assets_vulnerabilities t));
    [exact H|].
  destruct (find_asset (i_assetId v) t), (find_vuln (i_vulnerabilityId v) t); try exact H.
  simpl. rewrite existsb_app, H. reflexivity.
Qed.

Section ScanAgain.
Variables (now : Timestamp) (aid : Z).

Lemma scan_loop_keeps_pair (w : Z) (vs : list Vulnerability) :
  forall n u t,
  existsb (is_pair aid w) (assets_vulnerabilities t) = true ->
  existsb (is_pair aid w) (assets_vulnerabilities (snd (scan_loop alone now aid vs n u t))) = true.
Proof.
  induction vs as [|v vs IH]; intros n u t H; [exact H|].
  cbn [scan_loop]. unfold bind at 1, read.
  destruct (find_link_pair aid (v_id v) t) as [l|].
  - destruct (update_links_reopen now l t) as [r Hr]. unfold bind at 1. rewrite Hr.
    apply IH. cbn [assets_vulnerabilities]. rewrite existsb_map_pair; [exact H|].
    apply reopen_fields.
  - unfold bind at 1, interleave. change (alone (v_id v) t) with t. unfold bind at 1.
    pose proof (insert_link_keeps_pair (mkLinkInsert aid (v_id v) "open" None None (Some now))
                  now t aid w H) as Hk.
    destruct (insert_link (mkLinkInsert aid (v_id v) "open" None None (Some now)) now t)
      as [[l|e] t'].
    + apply IH. exact Hk.
    + exact Hk.
Qed.

Lemma scan_loop_links_all (vs : list Vulnerability) :
  forall n u t r t',
  scan_loop alone now aid vs n u t = (Ok r, t') ->
  forall v, In v vs -> existsb (is_pair aid (v_id v)) (assets_vulnerabilities t') = true.
Proof.
  induction vs as [|v0 vs IH]; intros n u t r t' E v Hv; [destruct Hv|].
  cbn [scan_loop] in E. unfold bind at 1, read in E.
  destruct (find_link_pair aid (v_id v0) t) as [l|] eqn:Hf.
  - destruct (update_links_reopen now l t) as [r0 Hr]. unfold bind at 1 in E. rewrite Hr in E.
    destruct Hv as [<-|Hv]; [|exact (IH _ _ _ _ _ E v Hv)].
    replace t' with (snd (scan_loop alone now aid vs n (u + 1)
                    (mkDB (assets t) (vulnerabilities t)
                       (map (fun x => if l_id x =? l_id l then reopen now l x else x)
                            (assets_vulnerabilities t)) (link_serial t)))) by now rewrite E.
    apply scan_loop_keeps_pair. cbn [assets_vulnerabilities].
    rewrite existsb_map_pair by apply reopen_fields.
    exact (find_some_existsb _ _ _ Hf).
  - unfold bind at 1, interleave in E. change (alone (v_id v0) t) with t in E.
    unfold bind at 1 in E.
    destruct (insert_link (mkLinkInsert aid (v_id v0) "open" None None (Some now)) now t)
      as [[l|e] t1] eqn:Ei; [|discriminate].
    destruct Hv as [<-|Hv]; [|exact (IH _ _ _ _ _ E v Hv)].
    replace t' with (snd (scan_loop alone now aid vs (n + 1) u t1)) by now rewrite E.
    apply scan_loop_keeps_pair.
    unfold insert_link in Ei. cbn [i_lastSeenAt i_status i_assetId i_vulnerabilityId] in Ei.
    simpl in Ei.
    destruct (existsb (is_pair aid (v_id v0)) (assets_vulnerabilities t)); [discriminate|].
    destruct (find_asset aid t), (find_vuln (v_id v0) t); try discriminate.
    injection Ei as <- <-. cbn [assets_vulnerabilities]. rewrite existsb_app. simpl.
    unfold is_pair. rewrite !Z.eqb_refl. apply orb_true_r.
Qed.

Lemma scan_loop_all_linked (vs : list Vulnerability) :
  forall n u t,
  (forall v, In v vs -> existsb (is_pair aid (v_id v)) (assets_vulnerabilities t) = true) ->
  exists t', scan_loop alone now aid vs n u t = (Ok (n, u + Z.of_nat (List.length vs)), t').
Proof.
  induction vs as [|v vs IH]; intros n u t H.
  - exists t. simpl. now rewrite Z.add_0_r.
  - cbn [scan_loop]. unfold bind at 1, read.
    destruct (existsb_find_some _ _ (H v (or_introl eq_refl))) as [l Hl].
    unfold find_link_pair. rewrite Hl.
    destruct (update_links_reopen now l t) as [r Hr]. unfold bind at 1. rewrite Hr.
    destruct (IH n (u + 1) (mkDB (assets t) (vulnerabilities t)
                (map (fun x => if l_id x =? l_id l then reopen now l x else x)
                     (assets_vulnerabilities t)) (link_serial t))) as [t' Ht'].
    + intros v' Hv'. cbn [assets_vulnerabilities].
      rewrite existsb_map_pair by apply reopen_fields. exact (H v' (or_intror Hv')).
    + exists t'. rewrite Ht'. cbn [List.length]. do 3 f_equal. lia.
Qed.
End ScanAgain.

(** A second scan of the same asset right after a completed first one,
    with no request in between, links nothing new: every candidate already
    has its link, so [newlyLinked] is 0 and [updatedLinks] equals
    [vulnerabilitiesProcessed], with the same message as the first. *)
Theorem scan_twice_links_nothing_new (now now' aid : Z) (s s' : DB) (m : string) (n u p : Z) :
  scan_asset alone now (Some aid) s = (Ok (mkResponse 200 (ScanResult m aid n u p)), s') ->
  exists s'', scan_asset alone now' (Some aid) s'
              = (Ok (mkResponse 200 (ScanResult m aid 0 p p)), s'').
Proof.
  unfold scan_asset, try_catch, bind, read, reply, ret.
  destruct (find_asset aid s) as [a|] eqn:Ha;
    [|unfold int4_guard; destruct (forallb int4_ok [aid]); discriminate].
  destruct (scan_candidates s) as [|c cs] eqn:Hc.
  - intros H. injection H as <- <- <- <- <-. exists s. rewrite Ha, Hc. reflexivity.
  - destruct (scan_loop alone now aid (c :: cs) 0 0 s) as [[[n0 u0]|e] s1] eqn:E;
      intros H; [|discriminate].
    injection H as <- <- <- <- <-.
    pose proof (scan_loop_parents alone now aid (c :: cs) (fun _ t => conj eq_refl eq_refl) 0 0 s)
      as [Hpa Hpv].
    rewrite E in Hpa, Hpv. cbn [snd] in Hpa, Hpv.
    assert (Ha1 : find_asset aid s1 = Some a) by (unfold find_asset in *; now rewrite Hpa).
    assert (Hc1 : scan_candidates s1 = c :: cs) by (unfold scan_candidates in *; now rewrite Hpv).
    rewrite Ha1, Hc1.
    destruct (scan_loop_all_linked now' aid (c :: cs) 0 0 s1
                (scan_loop_links_all now aid (c :: cs) 0 0 s _ s1 E)) as [t' Ht'].
    rewrite Ht'. eexists. reflexivity.
Qed.

Lemma existsb_rev {A} (p : A -> bool) (xs : list A) : existsb p (rev xs) = existsb p xs.
Proof.
  induction xs as [|x xs IH]; simpl; [reflexivity|].
  rewrite existsb_app, IH. simpl. now rewrite orb_false_r, orb_comm.
Qed.

Lemma scan_candidates_facts (s : DB) :
  NoDup (map v_id (vulnerabilities s)) ->
  (forall v, In v (scan_candidates s) -> In v (vulnerabilities s)) /\
  NoDup (map v_id (scan_candidates s)) /\
  (forall v, In v (scan_candidates s) -> find_vuln (v_id v) s <> None).
Proof.
  intros Hndv.
  pose proof (sort_desc_perm v_id (vulnerabilities s)) as Hperm.
  assert (Hcin : forall v, In v (scan_candidates s) -> In v (vulnerabilities s)).
  { intros v Hv. apply (Permutation_in _ Hperm). exact (in_firstn _ _ _ Hv). }
  split; [exact Hcin|]. split.
  - apply NoDup_map_firstn.
    apply (Permutation_NoDup (Permutation_map v_id (Permutation_sym Hperm))). exact Hndv.
  - intros v Hv Hn. unfold find_vuln in Hn.
    pose proof (find_none _ _ Hn v (Hcin v Hv)) as E. simpl in E. now rewrite Z.eqb_refl in E.
Qed.

(** The link-merging scan of an existing asset, with no concurrent
    request, on a well-formed store, changes the link table in only two
    ways: a link of the asset to a candidate is refreshed (status [open],
    [lastSeenAt] and [updatedAt] the scan time), and new links of the
    asset to candidates are added.  Every other link stays exactly as it
    was and no link is removed. *)
Theorem scan_keeps_untouched_links (now : Timestamp) (aid : Z) (a : Asset) (s : DB) :
  NoDup (map l_id (assets_vulnerabilities s)) ->
  (forall x, In x (assets_vulnerabilities s) -> l_id x < link_serial s) ->
  pairs_unique s ->
  NoDup (map v_id (vulnerabilities s)) ->
  find_asset aid s = Some a ->
  exists r s',
    scan_asset alone now (Some aid) s = (Ok r, s') /\ code r = 200 /\
    (forall x, In x (assets_vulnerabilities s) ->
       In (if (l_assetId x =? aid) &&
              existsb (Z.eqb (l_vulnerabilityId x)) (map v_id (scan_candidates s))
           then refresh now x else x) (assets_vulnerabilities s')) /\
    (forall y, In y (assets_vulnerabilities s') ->
       In y (assets_vulnerabilities s) \/
       (l_assetId y = aid /\ In (l_vulnerabilityId y) (map v_id (scan_candidates s)))).
Proof.
  intros Hnd Hser Hpu Hndv Ha.
  destruct (scan_candidates_facts s Hndv) as [_ [Hcnd Hvok]].
  destruct (scan_loop_merge s aid now Hnd Hser Hpu ltac:(congruence) (scan_candidates s) [] s 0 0
              (scan_inv_start s aid now) Hcnd (fun _ _ H => H) Hvok)
    as [t' [Hrun [extra [Ht [Hx _]]]]].
  rewrite app_nil_r in Ht, Hx.
  unfold scan_asset, try_catch, bind, read, reply, ret. rewrite Ha.
  assert (Hmerged : forall x, merged aid now (rev (map v_id (scan_candidates s))) x
          = if (l_assetId x =? aid) &&
               existsb (Z.eqb (l_vulnerabilityId x)) (map v_id (scan_candidates s))
            then refresh now x else x)
    by (intros x; unfold merged, touched; now rewrite existsb_rev).
  destruct (scan_candidates s) as [|c cs] eqn:Hc.
  - eexists; exists s. split; [reflexivity|]. split; [reflexivity|]. cbn [map existsb].
    split; [intros x Hx'; now rewrite andb_false_r|]. intros y Hy. now left.
  - rewrite Hrun. eexists; exists t'. split; [reflexivity|]. split; [reflexivity|]. split.
    + intros x Hx'. rewrite <- Hmerged, Ht. apply in_or_app. left. now apply in_map.
    + intros y Hy. rewrite Ht in Hy. apply in_app_or in Hy as [Hy|Hy].
      * apply in_map_iff in Hy as [x [<- Hx']]. rewrite Hmerged.
        destruct ((l_assetId x =? aid) && existsb (Z.eqb (l_vulnerabilityId x)) (map v_id (c :: cs)))
          eqn:E; [|now left].
        right. apply andb_true_iff in E as [E1 E2]. apply Z.eqb_eq in E1.
        apply existsb_exists in E2 as [w [Hw Hw']]. apply Z.eqb_eq in Hw'.
        unfold refresh. cbn [l_assetId l_vulnerabilityId]. rewrite Hw'. auto.
      * destruct (Hx y Hy) as [H1 [H2 _]]. right. split; [exact H1|].
        now rewrite in_rev.
Qed.

(** ** Link routes: creation, update, deletion and listing *)

Lemma status_of_string_inv (x : string) (st : Status) :
  status_of_string x = Some st -> status_to_string st = x.
Proof.
  unfold status_of_string.
  repeat match goal with |- context [String.eqb x ?c] =>
    destruct (String.eqb x c) eqn:E;
      [apply String.eqb_eq in E; subst; intros H; injection H as <-; reflexivity|clear E] end.
  discriminate.
Qed.

Lemma status_of_string_includes (x : string) (st : Status) :
  status_of_string x = Some st -> includes vulnerabilityStatusEnum_enumValues x = true.
Proof. intros H. apply status_of_string_inv in H. subst. destruct st; reflexivity. Qed.

Lemma status_check_passes (o : option string) :
  (forall x, o = Some x -> status_of_string x <> None) ->
  truthy_str o && negb (includes vulnerabilityStatusEnum_enumValues
                          (match o with Some x => x | None => "" end)) = false.
Proof.
  destruct o as [x|]; [|reflexivity]. intros H.
  destruct (status_of_string x) as [st|] eqn:E; [|exfalso; now apply (H x)].
  cbv beta iota. rewrite (status_of_string_includes _ _ E). apply andb_false_r.
Qed.

Lemma create_status_text_eq (b : CreateLinkBody) :
  (if truthy_str (b_status b) then match b_status b with Some x => x | None => ""%string end
   else "open"%string) = create_status_text b.
Proof.
  unfold create_status_text, truthy_str. destruct (b_status b) as [x|]; [|reflexivity].
  now destruct (String.eqb x "").
Qed.

Lemma create_status_text_parses (b : CreateLinkBody) :
  create_status_ok b = true ->
  exists st, status_of_string (create_status_text b) = Some st /\
             status_to_string st = create_status_text b.
Proof.
  intros Hst. destruct (status_of_string (create_status_text b)) as [st|] eqn:E.
  - exists st. split; [reflexivity|]. now apply status_of_string_inv.
  - exfalso. unfold create_status_ok, create_status_text in *.
    destruct (b_status b) as [x|]; [|discriminate].
    destruct (String.eqb x "") eqn:Ex; [discriminate|].
    simpl in Hst. exact (includes_status_of_string x Hst E).
Qed.

Lemma find_none_existsb_false {A} (p : A -> bool) (xs : list A) :
  find p xs = None -> existsb p xs = false.
Proof.
  intros H. apply not_true_iff_false. intros Hx. apply existsb_exists in Hx as [x [Hx Hp]].
  pose proof (find_none _ _ H x Hx). congruence.
Qed.

Lemma filter_key_single {A} (f : A -> Z) (x : A) (xs : list A) :
  NoDup (map f xs) -> In x xs -> filter (fun y => f y =? f x) xs = [x].
Proof.
  induction xs as [|y ys IH]; simpl; intros Hnd Hin; [contradiction|].
  inversion Hnd as [|? ? Hy Hys]; subst.
  destruct Hin as [<-|Hin].
  - rewrite Z.eqb_refl. f_equal. apply filter_all_false. intros z Hz.
    apply Z.eqb_neq. intros E. apply Hy. rewrite <- E. now apply in_map.
  - destruct (f y =? f x) eqn:E.
    + exfalso. apply Z.eqb_eq in E. apply Hy. rewrite E. now apply in_map.
    + now apply IH.
Qed.

Lemma filter_key_ext {A} (f : A -> Z) (p : A -> bool) (x : A) (xs : list A) :
  NoDup (map f xs) -> In x xs -> p x = true ->
  forall y, In y xs -> p y && (f y =? f x) = (f y =? f x).
Proof.
  intros Hnd Hin Hp y Hy. destruct (f y =? f x) eqn:E; [|apply andb_false_r].
  apply Z.eqb_eq in E. rewrite (NoDup_map_same f xs y x Hnd Hy Hin E), Hp. reflexivity.
Qed.

Lemma is_scoped_key (l : Link) (aid : Z) (xs : list Link) :
  NoDup (map l_id xs) -> In l xs -> l_assetId l = aid ->
  forall x, In x xs -> is_scoped (l_id l) aid x = (l_id x =? l_id l).
Proof.
  intros Hnd Hin Ha x Hx. unfold is_scoped. rewrite andb_comm.
  apply (filter_key_ext l_id (fun y => l_assetId y =? aid) l xs Hnd Hin); [|exact Hx].
  now apply Z.eqb_eq.
Qed.

Lemma create_link_fresh (now aid vid : Timestamp) (b : CreateLinkBody) (s : DB) :
  b_vulnerabilityId b = Some vid -> create_status_ok b = true -> create_date_ok b = true ->
  find_asset aid s <> None -> find_vuln vid s <> None -> find_link_pair aid vid s = None ->
  exists l,
    create_link (fun t => t) now (Some aid) b s
    = (Ok (mkResponse 201 (LinkRow l)),
       mkDB (assets s) (vulnerabilities s) (assets_vulnerabilities s ++ [l]) (link_serial s + 1)) /\
    l_id l = link_serial s /\ l_assetId l = aid /\ l_vulnerabilityId l = vid /\
    status_to_string (l_status l) = create_status_text b /\
    l_lastSeenAt l = match b_lastSeenAt b with Some (Some t) => t | _ => now end /\
    l_details l = b_details b /\ l_remediationNotes l = b_remediationNotes b /\
    l_updatedAt l = now.
Proof.
  intros Hvid Hst Hdate HA HV Hnone.
  destruct (create_status_text_parses b Hst) as [st [Hp Hs]].
  unfold create_link. rewrite Hvid, (create_status_check b Hst).
  unfold try_catch, bind, read, reply, ret, interleave.
  destruct (find_asset aid s) as [a|] eqn:Ea; [|contradiction].
  destruct (find_vuln vid s) as [v|] eqn:Ev; [|contradiction].
  rewrite Hnone. cbv beta iota. unfold insert_link.
  cbn [i_lastSeenAt i_status i_assetId i_vulnerabilityId i_details i_remediationNotes].
  rewrite create_status_text_eq, Hp.
  unfold find_link_pair in Hnone. rewrite (find_none_existsb_false _ _ Hnone), Ea, Ev.
  unfold create_date_ok in Hdate.
  destruct (b_lastSeenAt b) as [[t|]|]; [| discriminate |];
    (eexists; split; [reflexivity|]); simpl; repeat split; auto.
Qed.

(** A create request with no concurrent writer, for an existing asset and
    an existing vulnerability that are not linked yet, with a status
    absent, empty or one of the five values and a [lastSeenAt] absent or
    valid, answers 201 with the new link and appends exactly that link to
    the table.  The link takes the next serial id, which is consumed; its
    status is the one given ([open] when absent or empty), its
    [lastSeenAt] the one given or the clock, and its [updatedAt] the
    clock. *)
Theorem create_link_inserts (now aid vid : Timestamp) (b : CreateLinkBody) (s : DB) :
  b_vulnerabilityId b = Some vid -> create_status_ok b = true -> create_date_ok b = true ->
  find_asset aid s <> None -> find_vuln vid s <> None -> find_link_pair aid vid s = None ->
  exists l,
    create_link (fun t => t) now (Some aid) b s
    = (Ok (mkResponse 201 (LinkRow l)),
       mkDB (assets s) (vulnerabilities s) (assets_vulnerabilities s ++ [l]) (link_serial s + 1)) /\
    l_id l = link_serial s /\ l_assetId l = aid /\ l_vulnerabilityId l = vid /\
    status_to_string (l_status l) = create_status_text b /\
    l_lastSeenAt l = match b_lastSeenAt b with Some (Some t) => t | _ => now end /\
    l_details l = b_details b /\ l_remediationNotes l = b_remediationNotes b /\
    l_updatedAt l = now.
Proof. exact (create_link_fresh now aid vid b s). Qed.

(** Creating the same link twice: after a successful create, any later
    create request for the same pair that passes validation answers 409
    with the link the first one created, and changes nothing. *)
Theorem create_link_twice_conflicts (now aid vid : Timestamp) (b : CreateLinkBody) (s : DB) :
  b_vulnerabilityId b = Some vid -> create_status_ok b = true -> create_date_ok b = true ->
  find_asset aid s <> None -> find_vuln vid s <> None -> find_link_pair aid vid s = None ->
  exists l s',
    create_link (fun t => t) now (Some aid) b s = (Ok (mkResponse 201 (LinkRow l)), s') /\
    forall (interfere : DB -> DB) (now' : Timestamp) (b' : CreateLinkBody),
      b_vulnerabilityId b' = Some vid -> create_status_ok b' = true ->
      create_link interfere now' (Some aid) b' s'
      = (Ok (mkResponse 409 (ConflictBody "This vulnerability is already linked to this asset."
                                          (Some l))), s').
Proof.
  intros Hvid Hst Hdate HA HV Hnone.
  destruct (create_link_fresh now aid vid b s Hvid Hst Hdate HA HV Hnone)
    as [l [Hrun [_ [Hla [Hlv _]]]]].
  do 2 eexists. split; [exact Hrun|]. intros interfere now' b' Hvid' Hst'.
  unfold create_link. rewrite Hvid', (create_status_check b' Hst').
  unfold try_catch, bind, read, reply, ret. cbv beta iota zeta.
  change (find_asset aid (mkDB (assets s) (vulnerabilities s) (assets_vulnerabilities s ++ [l])
                              (link_serial s + 1))) with (find_asset aid s).
  destruct (find_asset aid s) as [a|]; [|contradiction]. cbv beta iota zeta.
  change (find_vuln vid (mkDB (assets s) (vulnerabilities s) (assets_vulnerabilities s ++ [l])
                             (link_serial s + 1))) with (find_vuln vid s).
  destruct (find_vuln vid s) as [v|]; [|contradiction]. cbv beta iota zeta.
  unfold find_link_pair in *. cbn [assets_vulnerabilities]. rewrite find_app, Hnone.
  simpl. assert (Hp : is_pair aid vid l = true) by (apply is_pair_spec; auto).
  rewrite Hp. reflexivity.
Qed.

(** Create then delete: deleting, under the same asset, the link a
    successful create just made answers 200 with its id and gives back the
    link table as it was before the create (when every existing id is
    below the serial); only the serial stays advanced. *)
Theorem create_then_delete_restores (now aid vid : Timestamp) (b : CreateLinkBody) (s : DB) :
  b_vulnerabilityId b = Some vid -> create_status_ok b = true -> create_date_ok b = true ->
  find_asset aid s <> None -> find_vuln vid s <> None -> find_link_pair aid vid s = None ->
  (forall x, In x (assets_vulnerabilities s) -> l_id x < link_serial s) ->
  exists l s',
    create_link (fun t => t) now (Some aid) b s = (Ok (mkResponse 201 (LinkRow l)), s') /\
    delete_link (Some aid) (Some (l_id l)) s'
    = (Ok (mkResponse 200 (Unlinked "Vulnerability unlinked from asset successfully." (l_id l))),
       mkDB (assets s) (vulnerabilities s) (assets_vulnerabilities s) (link_serial s + 1)).
Proof.
  intros Hvid Hst Hdate HA HV Hnone Hser.
  destruct (create_link_fresh now aid vid b s Hvid Hst Hdate HA HV Hnone)
    as [l [Hrun [Hid [Hla _]]]].
  do 2 eexists. split; [exact Hrun|].
  assert (Hoff : forall x, In x (assets_vulnerabilities s) -> is_scoped (l_id l) aid x = false).
  { intros x Hx. unfold is_scoped. apply andb_false_intro1. apply Z.eqb_neq.
    specialize (Hser x Hx). lia. }
  assert (Hon : is_scoped (l_id l) aid l = true).
  { unfold is_scoped. rewrite Hla, !Z.eqb_refl. reflexivity. }
  unfold delete_link, try_catch, bind, delete_links, reply, ret. cbn [assets_vulnerabilities assets vulnerabilities link_serial].
  rewrite !filter_app, (filter_all_false _ _ Hoff), (filter_negb_all_false _ _ Hoff).
  simpl. rewrite Hon. simpl. rewrite app_nil_r. reflexivity.
Qed.

(** An update request for a link of the asset that changes at least one
    field, with values the store accepts, answers 200 with the patched
    link and rewrites that row only (link ids being unique): the given
    fields are set, the others kept, the id, asset and vulnerability are
    kept and [updatedAt] is the clock. *)
Theorem update_link_patches (now aid : Timestamp) (l : Link) (b : UpdateLinkBody) (s : DB) :
  NoDup (map l_id (assets_vulnerabilities s)) -> In l (assets_vulnerabilities s) ->
  l_assetId l = aid -> update_body_acceptable b = true ->
  exists l',
    update_link now (Some aid) (Some (l_id l)) b s
    = (Ok (mkResponse 200 (LinkRow l')),
       mkDB (assets s) (vulnerabilities s)
            (map (fun x => if l_id x =? l_id l then l' else x) (assets_vulnerabilities s))
            (link_serial s)) /\
    l_id l' = l_id l /\ l_assetId l' = aid /\ l_vulnerabilityId l' = l_vulnerabilityId l /\
    status_to_string (l_status l')
      = match u_status b with Some x => x | None => status_to_string (l_status l) end /\
    l_lastSeenAt l' = match u_lastSeenAt b with Some (Some t) => t | _ => l_lastSeenAt l end /\
    l_details l' = match u_details b with Some x => x | None => l_details l end /\
    l_remediationNotes l'
      = match u_remediationNotes b with Some x => x | None => l_remediationNotes l end /\
    l_updatedAt l' = now.
Proof.
  intros Hnd Hin Ha Hacc.
  pose proof (is_scoped_key l aid _ Hnd Hin Ha) as Hsc.
  assert (Hf : filter (is_scoped (l_id l) aid) (assets_vulnerabilities s) = [l]).
  { rewrite (filter_ext_in _ _ _ Hsc). now apply filter_key_single. }
  unfold update_body_acceptable, patch_storable in Hacc. cbn [p_status p_lastSeenAt] in Hacc.
  apply andb_true_iff in Hacc as [Hne Hacc]. apply andb_true_iff in Hacc as [Hps Hdt].
  apply negb_true_iff in Hne.
  assert (Hval : truthy_str (u_status b) && negb (includes vulnerabilityStatusEnum_enumValues
                   (match u_status b with Some x => x | None => ""%string end)) = false).
  { apply status_check_passes. intros x Hx. rewrite Hx in Hps. now destruct (status_of_string x). }
  unfold update_link. rewrite Hval, Hne.
  unfold try_catch, bind, update_links, reply, ret. cbn [p_lastSeenAt p_status].
  assert (Hmap : forall l', map (fun x => if is_scoped (l_id l) aid x then l' x else x)
                                 (assets_vulnerabilities s)
                            = map (fun x => if l_id x =? l_id l then l' l else x)
                                 (assets_vulnerabilities s)).
  { intros l'. apply map_ext_in. intros x Hx. rewrite (Hsc x Hx).
    destruct (l_id x =? l_id l) eqn:E; [|reflexivity].
    apply Z.eqb_eq in E. now rewrite (NoDup_map_same l_id _ x l Hnd Hx Hin E). }
  destruct (u_lastSeenAt b) as [[t|]|] eqn:Hu; try discriminate;
  destruct (u_status b) as [x|] eqn:Hus;
  try (destruct (status_of_string x) as [st|] eqn:Hx; [|discriminate]);
  cbv beta iota zeta; rewrite Hf, Hmap; cbn [map];
  (eexists; split; [reflexivity|]); simpl; rewrite ?Hus;
  repeat split; auto; now apply status_of_string_inv.
Qed.

(** An update request whose status is the empty string (which passes the
    route's check, being falsy), or whose [lastSeenAt] is an invalid date
    with a status absent or valid, is refused by the store: the route
    answers 500 and changes nothing, whether or not the link exists. *)
Theorem update_link_store_rejects (now aid jid : Timestamp) (b : UpdateLinkBody) (s : DB) :
  (u_status b = Some ""%string \/
   (u_lastSeenAt b = Some None /\ forall x, u_status b = Some x -> status_of_string x <> None)) ->
  update_link now (Some aid) (Some jid) b s
  = (Ok (mkResponse 500 (Message "Internal server error.")), s).
Proof.
  intros [Hs|[Hd Hs]].
  - unfold update_link. rewrite Hs. cbv beta iota. simpl.
    unfold try_catch, bind, update_links. cbn [p_lastSeenAt p_status].
    destruct (u_lastSeenAt b) as [[t|]|]; reflexivity.
  - unfold update_link. rewrite (status_check_passes _ Hs). rewrite Hd.
    destruct (u_status b) as [x|]; cbn [patch_is_empty p_status p_details p_remediationNotes p_lastSeenAt];
    destruct (u_details b), (u_remediationNotes b);
    unfold try_catch, bind, update_links; cbn [p_lastSeenAt p_status]; reflexivity.
Qed.

(** Deleting a link of the asset (link ids being unique) answers 200 with
    its id and removes exactly that row. *)
Theorem delete_link_removes (aid : Z) (l : Link) (s : DB) :
  NoDup (map l_id (assets_vulnerabilities s)) -> In l (assets_vulnerabilities s) ->
  l_assetId l = aid ->
  delete_link (Some aid) (Some (l_id l)) s
  = (Ok (mkResponse 200 (Unlinked "Vulnerability unlinked from asset successfully." (l_id l))),
     mkDB (assets s) (vulnerabilities s)
          (filter (fun x => negb (l_id x =? l_id l)) (assets_vulnerabilities s)) (link_serial s)).
Proof.
  intros Hnd Hin Ha.
  pose proof (is_scoped_key l aid _ Hnd Hin Ha) as Hsc.
  unfold delete_link, try_catch, bind, delete_links, reply, ret.
  rewrite (filter_ext_in _ _ _ Hsc), (filter_key_single l_id l _ Hnd Hin).
  assert (Hneg : filter (fun x => negb (is_scoped (l_id l) aid x)) (assets_vulnerabilities s)
                 = filter (fun x => negb (l_id x =? l_id l)) (assets_vulnerabilities s)).
  { apply filter_ext_in. intros x Hx. now rewrite (Hsc x Hx). }
  rewrite Hneg. reflexivity.
Qed.

(** Deleting twice: whatever the first delete of a link did, a second
    identical request with ids in the int4 range answers 404 and changes
    nothing. *)
Theorem delete_link_twice (aid jid : Z) (s : DB) :
  int4_ok aid = true -> int4_ok jid = true ->
  let s' := snd (delete_link (Some aid) (Some jid) s) in
  delete_link (Some aid) (Some jid) s'
  = (Ok (mkResponse 404 (Message "Asset-vulnerability link not found.")), s').
Proof.
  intros Hi Hj. cbv zeta.
  assert (Hs' : snd (delete_link (Some aid) (Some jid) s)
                = mkDB (assets s) (vulnerabilities s)
                       (filter (fun x => negb (is_scoped jid aid x)) (assets_vulnerabilities s))
                       (link_serial s)).
  { unfold delete_link, try_catch, bind, delete_links, int4_guard, reply, ret.
    destruct (map l_id (filter (is_scoped jid aid) (assets_vulnerabilities s)));
      cbn [forallb]; rewrite ?Hj, ?Hi; reflexivity. }
  rewrite Hs'.
  assert (Hoff : forall x, In x (filter (fun x => negb (is_scoped jid aid x)) (assets_vulnerabilities s)) ->
                 is_scoped jid aid x = false).
  { intros x Hx. apply filter_In in Hx as [_ Hx]. now apply negb_true_iff. }
  unfold delete_link, try_catch, bind, delete_links, int4_guard, reply, ret.
  cbn [assets_vulnerabilities assets vulnerabilities link_serial].
  rewrite (filter_all_false _ _ Hoff), (filter_negb_all_false _ _ Hoff).
  cbn [map forallb]. rewrite Hj, Hi. reflexivity.
Qed.

Lemma left_join_vuln_single (s : DB) (l : Link) :
  NoDup (map v_id (vulnerabilities s)) ->
  left_join_vuln s l = [find_vuln (l_vulnerabilityId l) s].
Proof.
  intros Hnd. destruct (find_vuln (l_vulnerabilityId l) s) as [v|] eqn:E.
  - now apply left_join_vuln_found.
  - unfold left_join_vuln. unfold find_vuln in E.
    rewrite filter_all_false; [reflexivity|]. intros v Hv. exact (find_none _ _ E v Hv).
Qed.

Lemma flat_map_single {A B} (f : A -> list B) (g : A -> B) (xs : list A) :
  (forall x, In x xs -> f x = [g x]) -> flat_map f xs = map g xs.
Proof.
  induction xs as [|x xs IH]; simpl; intros H; [reflexivity|].
  rewrite (H x (or_introl eq_refl)), IH; [reflexivity|]. auto.
Qed.

(** Listing the links of an existing asset (vulnerability ids being
    unique) answers 200 with one row per link of the asset, each carrying
    the link's columns and its vulnerability ([None] when the vulnerability
    is missing), in descending [lastSeenAt] order; the store is not
    changed. *)
Theorem list_asset_links_rows (aid : Z) (s : DB) :
  find_asset aid s <> None -> NoDup (map v_id (vulnerabilities s)) ->
  exists rows,
    list_asset_links (Some aid) s = (Ok (mkRowResponse 200 (LinkedVulnerabilities rows)), s) /\
    Permutation rows
      (map (fun l => linked_item l (find_vuln (l_vulnerabilityId l) s))
           (filter (fun l => l_assetId l =? aid) (assets_vulnerabilities s))) /\
    StronglySorted (desc_by li_lastSeenAt) rows.
Proof.
  intros HA Hnd.
  unfold list_asset_links, try_catch, bind, read, row_reply, ret.
  destruct (find_asset aid s) as [a|]; [|contradiction].
  rewrite (flat_map_single _ (fun l => (l, find_vuln (l_vulnerabilityId l) s)));
    [|intros l _; now rewrite (left_join_vuln_single s l Hnd)].
  eexists. split; [reflexivity|]. split.
  - rewrite (Permutation_map _ (sort_desc_perm _ _)), map_map. reflexivity.
  - apply StronglySorted_map. exact (sort_desc_sorted _ _).
Qed.

(** ** Asset routes: single-asset reads and updates, deletes of parents *)

Lemma asset_type_roundtrip (t : AssetType) :
  asset_type_of_string (asset_type_to_string t) = Some t.
Proof. destruct t; reflexivity. Qed.

Lemma asset_type_of_string_inv (x : string) (t : AssetType) :
  asset_type_of_string x = Some t -> asset_type_to_string t = x.
Proof.
  unfold asset_type_of_string.
  repeat match goal with |- context [String.eqb x ?c] =>
    destruct (String.eqb x c) eqn:E;
      [apply String.eqb_eq in E; subst; intros H; injection H as <-; reflexivity|clear E] end.
  discriminate.
Qed.

Lemma asset_type_check_passes (o : option (option string)) :
  (forall x, o = Some (Some x) -> asset_type_of_string x <> None) ->
  truthy_str (match o with Some x => x | None => None end)
  && negb (includes assetTypeEnum_enumValues (match o with Some (Some x) => x | _ => ""%string end))
  = false.
Proof.
  destruct o as [[x|]|]; [|reflexivity|reflexivity]. intros H.
  destruct (asset_type_of_string x) as [t|] eqn:E; [|exfalso; now apply (H x)].
  apply asset_type_of_string_inv in E. subst. cbv beta iota.
  destruct t; reflexivity.
Qed.

Lemma asset_body_nonempty (b : UpdateAssetBody) :
  b <> mkUpdateAssetBody None None None None None None ->
  asset_patch_is_empty (mkAssetPatch (ub_name b) (ub_type b) (ub_ipAddress b) (ub_macAddress b)
                                     (ub_operatingSystem b) (ub_description b) None) = false.
Proof.
  destruct b as [n t i m o d]. cbn [ub_name ub_type ub_ipAddress ub_macAddress ub_operatingSystem ub_description].
  destruct n, t, i, m, o, d; try reflexivity. intros H. now exfalso.
Qed.

Lemma filter_head_find {A} (p : A -> bool) (xs : list A) (x : A) (rest : list A) :
  filter p xs = x :: rest -> find p xs = Some x.
Proof.
  induction xs as [|y ys IH]; simpl; [discriminate|].
  destruct (p y); [intros H; injection H as <- _; reflexivity|exact IH].
Qed.

Lemma filter_true {A} (xs : list A) : filter (fun _ => true) xs = xs.
Proof. induction xs as [|x xs IH]; simpl; congruence. Qed.

Lemma update_assets_go_found (ty : option AssetType) (p : AssetPatch) (now : Timestamp)
    (aid : Z) (s : DB) (x : Asset) (xs : list Asset) :
  filter (fun y => a_id y =? aid) (assets s) = x :: xs ->
  find_asset aid (mkDB (map (fun y => if a_id y =? aid then apply_asset_patch ty p now y else y)
                            (assets s))
                       (vulnerabilities s) (assets_vulnerabilities s) (link_serial s))
  = Some (apply_asset_patch ty p now x).
Proof.
  intros Hf.
  assert (Hx : (a_id x =? aid) = true).
  { assert (Hin : In x (filter (fun y => a_id y =? aid) (assets s))) by (rewrite Hf; now left).
    now apply filter_In in Hin as [_ Hin]. }
  unfold find_asset. cbn [assets].
  rewrite find_map; [|intros y; destruct (a_id y =? aid) eqn:E; exact E].
  rewrite (filter_head_find _ _ _ _ Hf). cbn [option_map]. now rewrite Hx.
Qed.

Lemma update_assets_found (aid : Z) (p : AssetPatch) (now : Timestamp) (s s' : DB)
    (a : Asset) (rest : list Asset) :
  update_assets (fun x => a_id x =? aid) p now s = Some (a :: rest, s') ->
  find_asset aid s' = Some a.
Proof.
  unfold update_assets. cbv beta zeta.
  destruct (filter (fun x => a_id x =? aid) (assets s)) as [|x xs] eqn:Hf.
  - destruct (pa_type p) as [[y|]|]; [destruct (asset_type_of_string y)|..];
      intros H; discriminate H.
  - cbv iota.
    destruct (_ || _ || _);
      [destruct (pa_type p) as [[y|]|]; [destruct (asset_type_of_string y)|..];
       intros H; discriminate H|].
    destruct (pa_type p) as [[y|]|]; [destruct (asset_type_of_string y)|..];
      intros H; try discriminate H; cbn [map] in H; injection H as Ha _ Hs; subst;
      exact (update_assets_go_found _ _ _ _ _ _ _ Hf).
Qed.

Lemma update_assets_one (aid : Z) (p : AssetPatch) (now : Timestamp) (s : DB) (a : Asset)
    (ty : option AssetType) :
  NoDup (map a_id (assets s)) -> find_asset aid s = Some a ->
  (pa_type p = None /\ ty = None \/
   exists t, pa_type p = Some (Some (asset_type_to_string t)) /\ ty = Some t) ->
  is_null_set (pa_name p) = false -> is_null_set (pa_ipAddress p) = false ->
  update_assets (fun x => a_id x =? aid) p now s
  = Some ([apply_asset_patch ty p now a],
          mkDB (map (fun x => if a_id x =? aid then apply_asset_patch ty p now a else x) (assets s))
               (vulnerabilities s) (assets_vulnerabilities s) (link_serial s)).
Proof.
  intros Hnd Hf Hty Hn Hi.
  destruct (find_some _ _ Hf) as [Hin Ha]. apply Z.eqb_eq in Ha.
  assert (Hrows : filter (fun x => a_id x =? aid) (assets s) = [a])
    by (rewrite <- Ha; now apply filter_key_single).
  assert (Hmap : forall ty',
    map (fun x => if a_id x =? aid then apply_asset_patch ty' p now x else x) (assets s)
    = map (fun x => if a_id x =? aid then apply_asset_patch ty' p now a else x) (assets s)).
  { intros ty'. apply map_ext_in. intros x Hx. destruct (a_id x =? aid) eqn:E; [|reflexivity].
    apply Z.eqb_eq in E. rewrite <- Ha in E.
    now rewrite (NoDup_map_same a_id _ x a Hnd Hx Hin E). }
  unfold update_assets.
  destruct Hty as [[Hp ->]|[t [Hp ->]]]; rewrite Hp; [|rewrite asset_type_roundtrip];
    cbv beta iota zeta; rewrite Hmap, Hrows, Hn, Hi; reflexivity.
Qed.

Lemma update_assets_null (aid : Z) (p : AssetPatch) (now : Timestamp) (s : DB) :
  find_asset aid s <> None ->
  is_null_set (pa_name p) || is_null_set (pa_type p) || is_null_set (pa_ipAddress p) = true ->
  update_assets (fun x => a_id x =? aid) p now s = None.
Proof.
  intros HA Hnull.
  destruct (find_asset aid s) as [a|] eqn:Hf; [|contradiction].
  destruct (find_some _ _ Hf) as [Hin Ha].
  destruct (filter (fun x => a_id x =? aid) (assets s)) as [|x xs] eqn:Hrows.
  { exfalso. assert (Hin' : In a (filter (fun x => a_id x =? aid) (assets s)))
      by (apply filter_In; auto). rewrite Hrows in Hin'. contradiction. }
  unfold update_assets. cbv beta zeta. rewrite Hrows. cbv iota. rewrite Hnull.
  destruct (pa_type p) as [[y|]|]; [destruct (asset_type_of_string y)|..]; reflexivity.
Qed.

Lemma update_assets_nomatch (aid : Z) (p : AssetPatch) (now : Timestamp) (s : DB) :
  find_asset aid s = None ->
  (forall x, pa_type p = Some (Some x) -> asset_type_of_string x <> None) ->
  update_assets (fun x => a_id x =? aid) p now s = Some ([], s).
Proof.
  intros Hf Ht.
  assert (Hrows : filter (fun x => a_id x =? aid) (assets s) = []).
  { apply filter_all_false. intros x Hx. exact (find_none _ _ Hf x Hx). }
  unfold update_assets. cbv beta zeta. rewrite Hrows. cbv iota.
  destruct (pa_type p) as [[y|]|] eqn:E; [|reflexivity|reflexivity].
  destruct (asset_type_of_string y) eqn:E2; [reflexivity|].
  exfalso. exact (Ht y eq_refl E2).
Qed.

Lemma delete_asset_state (aid : Z) (s : DB) :
  snd (delete_asset (Some aid) s) = snd (delete_assets aid s).
Proof.
  unfold delete_asset, try_catch, bind, reply, ret.
  destruct (delete_assets aid s) as [[ids|e] t];
    [destruct ids; [unfold int4_guard; destruct (forallb int4_ok [aid])|]|]; reflexivity.
Qed.

Lemma delete_vulnerability_state (vid : Z) (s : DB) :
  snd (delete_vulnerability (Some vid) s) = snd (delete_vulnerabilities vid s).
Proof.
  unfold delete_vulnerability, try_catch, bind, reply, ret.
  destruct (delete_vulnerabilities vid s) as [[ids|e] t];
    [destruct ids; [unfold int4_guard; destruct (forallb int4_ok [vid])|]|]; reflexivity.
Qed.

Lemma delete_assets_nomatch (aid : Z) (s : DB) :
  (forall a, In a (assets s) -> (a_id a =? aid) = false) ->
  delete_assets aid s = (Ok [], s).
Proof.
  intros H. unfold delete_assets. rewrite (filter_all_false _ _ H). cbn [map existsb negb].
  rewrite (filter_negb_all_false _ _ H), filter_true, db_eta. reflexivity.
Qed.

Lemma delete_vulnerabilities_nomatch (vid : Z) (s : DB) :
  (forall v, In v (vulnerabilities s) -> (v_id v =? vid) = false) ->
  delete_vulnerabilities vid s = (Ok [], s).
Proof.
  intros H. unfold delete_vulnerabilities. rewrite (filter_all_false _ _ H). cbn [map existsb negb].
  rewrite (filter_negb_all_false _ _ H), filter_true, db_eta. reflexivity.
Qed.

(** An update of an existing asset (asset ids being unique) whose body
    sets at least one field, gives a valid type or none, and does not set
    [name] or [ipAddress] to [null], answers 200 with the updated asset and
    rewrites that asset only: the given fields are set, the others kept,
    the id and [createdAt] kept, [updatedAt] the clock; vulnerabilities and
    links are untouched. *)
Theorem update_asset_patches (now aid : Timestamp) (a : Asset) (b : UpdateAssetBody) (s : DB) :
  NoDup (map a_id (assets s)) -> find_asset aid s = Some a ->
  b <> mkUpdateAssetBody None None None None None None ->
  (ub_type b = None \/ exists t, ub_type b = Some (Some (asset_type_to_string t))) ->
  ub_name b <> Some None -> ub_ipAddress b <> Some None ->
  exists a',
    update_asset now (Some aid) b s
    = (Ok (mkRowResponse 200 (AssetRow a')),
       mkDB (map (fun x => if a_id x =? aid then a' else x) (assets s))
            (vulnerabilities s) (assets_vulnerabilities s) (link_serial s)) /\
    a_id a' = aid /\
    a_name a' = match ub_name b with Some (Some x) => x | _ => a_name a end /\
    asset_type_to_string (a_type a')
      = match ub_type b with Some (Some x) => x | _ => asset_type_to_string (a_type a) end /\
    a_ipAddress a' = match ub_ipAddress b with Some (Some x) => x | _ => a_ipAddress a end /\
    a_macAddress a' = match ub_macAddress b with Some x => x | None => a_macAddress a end /\
    a_operatingSystem a'
      = match ub_operatingSystem b with Some x => x | None => a_operatingSystem a end /\
    a_description a' = match ub_description b with Some x => x | None => a_description a end /\
    a_lastScannedAt a' = a_lastScannedAt a /\
    a_createdAt a' = a_createdAt a /\ a_updatedAt a' = now.
Proof.
  intros Hnd Hf Hne Hty Hn Hi.
  destruct (find_some _ _ Hf) as [_ Ha]. apply Z.eqb_eq in Ha.
  assert (Htc : forall x, ub_type b = Some (Some x) -> asset_type_of_string x <> None).
  { intros x Hx. destruct Hty as [Hty|[t Hty]]; rewrite Hty in Hx; [discriminate|].
    injection Hx as <-. now rewrite asset_type_roundtrip. }
  assert (Hn' : is_null_set (ub_name b) = false)
    by (destruct (ub_name b) as [[]|]; [reflexivity|contradiction|reflexivity]).
  assert (Hi' : is_null_set (ub_ipAddress b) = false)
    by (destruct (ub_ipAddress b) as [[]|]; [reflexivity|contradiction|reflexivity]).
  unfold update_asset. rewrite (asset_type_check_passes _ Htc). cbv zeta.
  rewrite (asset_body_nonempty b Hne).
  set (p := mkAssetPatch (ub_name b) (ub_type b) (ub_ipAddress b) (ub_macAddress b)
                         (ub_operatingSystem b) (ub_description b) None).
  destruct Hty as [Hty|[t Hty]].
  - rewrite (update_assets_one aid p now s a None Hnd Hf (or_introl (conj Hty eq_refl)) Hn' Hi').
    eexists. split; [reflexivity|]. cbn. rewrite Hty. repeat split; auto.
  - rewrite (update_assets_one aid p now s a (Some t) Hnd Hf
               (or_intror (ex_intro _ t (conj Hty eq_refl))) Hn' Hi').
    eexists. split; [reflexivity|]. cbn. rewrite Hty. repeat split; auto.
Qed.

(** How the store answers an asset update the route lets through: a type
    given as the empty string passes the route's check (it is falsy) but
    fails the enum cast, so the route answers 500 and changes nothing; a
    [null] name, type or IP address for an existing asset breaks a NOT
    NULL column and also answers 500 with the store unchanged; for a
    missing asset whose id is in the int4 range, any body that sets a
    field (even to [null]) and gives no invalid type answers 404 and
    changes nothing. *)
Theorem update_asset_store_errors (now aid : Timestamp) (b : UpdateAssetBody) (s : DB) :
  (ub_type b = Some (Some ""%string) ->
   update_asset now (Some aid) b s
   = (Ok (mkRowResponse 500 (RowMessage "Internal server error while updating asset.")), s)) /\
  (find_asset aid s <> None ->
   (ub_name b = Some None \/ ub_type b = Some None \/ ub_ipAddress b = Some None) ->
   (forall x, ub_type b = Some (Some x) -> asset_type_of_string x <> None) ->
   update_asset now (Some aid) b s
   = (Ok (mkRowResponse 500 (RowMessage "Internal server error while updating asset.")), s)) /\
  (find_asset aid s = None -> int4_ok aid = true ->
   b <> mkUpdateAssetBody None None None None None None ->
   (forall x, ub_type b = Some (Some x) -> asset_type_of_string x <> None) ->
   update_asset now (Some aid) b s
   = (Ok (mkRowResponse 404 (RowMessage "Asset not found or no changes made.")), s)).
Proof.
  split; [|split].
  - intros Ht. unfold update_asset. rewrite Ht. destruct (ub_name b); reflexivity.
  - intros HA Hnull Htc.
    assert (Hne : b <> mkUpdateAssetBody None None None None None None).
    { intros ->. cbn in Hnull. intuition discriminate. }
    unfold update_asset. rewrite (asset_type_check_passes _ Htc). cbv zeta.
    rewrite (asset_body_nonempty b Hne).
    rewrite (update_assets_null aid _ now s HA); [reflexivity|].
    cbn [pa_name pa_type pa_ipAddress].
    destruct Hnull as [ -> | [ -> | -> ] ]; cbn; rewrite ?orb_true_r; reflexivity.
  - intros HA Hr Hne Htc.
    unfold update_asset. rewrite (asset_type_check_passes _ Htc). cbv zeta.
    rewrite (asset_body_nonempty b Hne).
    rewrite (update_assets_nomatch aid _ now s HA), Hr; [reflexivity|exact Htc].
Qed.

(** Update then read: after an update of an asset answered 200, reading
    that asset answers 200 with the same row the update returned. *)
Theorem update_asset_then_get (now aid : Timestamp) (b : UpdateAssetBody) (s s' : DB) (a : Asset) :
  update_asset now (Some aid) b s = (Ok (mkRowResponse 200 (AssetRow a)), s') ->
  get_asset (Some aid) s' = (Ok (mkRowResponse 200 (AssetRow a)), s').
Proof.
  intros H. unfold update_asset, row_reply, ret in H.
  destruct (truthy_str _ && _); [discriminate H|]. cbv zeta in H.
  destruct (asset_patch_is_empty _); [discriminate H|].
  destruct (update_assets _ _ _ s) as [[[|a0 rest] s1]|] eqn:E;
    try (destruct (int4_ok aid); discriminate H).
  injection H as Ha Hs. subst.
  unfold get_asset, try_catch, bind, read, row_reply, ret.
  rewrite (update_assets_found _ _ _ _ _ _ _ E). reflexivity.
Qed.

(** The timestamp-only scan of an existing asset (asset ids being
    unique) answers 200 with the asset whose [lastScannedAt] and
    [updatedAt] are the clock, every other column kept, and rewrites that
    asset only; vulnerabilities and links are untouched. *)
Theorem scan_touch_stamps (now aid : Timestamp) (a : Asset) (s : DB) :
  NoDup (map a_id (assets s)) -> find_asset aid s = Some a ->
  let a' := mkAsset (a_id a) (a_name a) (a_type a) (a_ipAddress a) (a_macAddress a)
                    (a_operatingSystem a) (a_description a) (Some now) (a_createdAt a) now in
  scan_touch now (Some aid) s
  = (Ok (mkRowResponse 200 (AssetRow a')),
     mkDB (map (fun x => if a_id x =? aid then a' else x) (assets s))
          (vulnerabilities s) (assets_vulnerabilities s) (link_serial s)).
Proof.
  intros Hnd Hf. cbv zeta. unfold scan_touch. cbv beta.
  rewrite (update_assets_one aid (mkAssetPatch None None None None None None (Some (Some now)))
             now s a None Hnd Hf (or_introl (conj eq_refl eq_refl)) eq_refl eq_refl).
  reflexivity.
Qed.

(** A missing asset whose id is in the int4 range: reading it, listing
    its links, stamping its scan time and deleting it all answer 404
    [Asset not found.] and change nothing. *)
Theorem missing_asset_not_found (now aid : Timestamp) (s : DB) :
  find_asset aid s = None -> int4_ok aid = true ->
  get_asset (Some aid) s = (Ok (mkRowResponse 404 (RowMessage "Asset not found.")), s) /\
  list_asset_links (Some aid) s = (Ok (mkRowResponse 404 (RowMessage "Asset not found.")), s) /\
  scan_touch now (Some aid) s = (Ok (mkRowResponse 404 (RowMessage "Asset not found.")), s) /\
  delete_asset (Some aid) s = (Ok (mkResponse 404 (Message "Asset not found.")), s).
Proof.
  intros Hf Hr. split; [|split; [|split]].
  - unfold get_asset, try_catch, bind, read, int4_guard, row_reply, ret.
    rewrite Hf. cbn [forallb]. now rewrite Hr.
  - unfold list_asset_links, try_catch, bind, read, int4_guard, row_reply, ret.
    rewrite Hf. cbn [forallb]. now rewrite Hr.
  - unfold scan_touch. cbv beta.
    rewrite (update_assets_nomatch aid _ now s Hf), Hr; [reflexivity|]. discriminate.
  - unfold delete_asset, try_catch, bind, int4_guard, reply, ret.
    rewrite delete_assets_nomatch; [cbn [forallb]; now rewrite Hr|].
    intros a Ha. exact (find_none _ _ Hf a Ha).
Qed.

(** Deleting a parent twice: whatever the first delete of an asset (or of
    a vulnerability) did, a second identical request with an id in the
    int4 range answers 404 and changes nothing. *)
Theorem delete_parent_twice (aid vid : Z) (s : DB) :
  int4_ok aid = true -> int4_ok vid = true ->
  (let s' := snd (delete_asset (Some aid) s) in
   delete_asset (Some aid) s' = (Ok (mkResponse 404 (Message "Asset not found.")), s')) /\
  (let s' := snd (delete_vulnerability (Some vid) s) in
   delete_vulnerability (Some vid) s'
   = (Ok (mkResponse 404 (Message "Vulnerability not found.")), s')).
Proof.
  intros Hra Hrv. split; cbv zeta.
  - rewrite delete_asset_state. unfold delete_asset at 1.
    unfold try_catch, bind, int4_guard, reply, ret.
    rewrite delete_assets_nomatch; [cbn [forallb]; now rewrite Hra|].
    intros a Ha. unfold delete_assets in Ha. cbn in Ha.
    apply filter_In in Ha as [_ Ha]. now apply negb_true_iff.
  - rewrite delete_vulnerability_state. unfold delete_vulnerability at 1.
    unfold try_catch, bind, int4_guard, reply, ret.
    rewrite delete_vulnerabilities_nomatch; [cbn [forallb]; now rewrite Hrv|].
    intros v Hv. unfold delete_vulnerabilities in Hv. cbn in Hv.
    apply filter_In in Hv as [_ Hv]. now apply negb_true_iff.
Qed.

(** Delete then read: for ids in the int4 range, after a delete of an
    asset, reading the asset and listing its links answer 404; after a
    delete of a vulnerability, reading it answers 404.  Nothing is changed
    by these reads. *)
Theorem delete_then_read_not_found (aid vid : Z) (s : DB) :
  int4_ok aid = true -> int4_ok vid = true ->
  (let s' := snd (delete_asset (Some aid) s) in
   get_asset (Some aid) s' = (Ok (mkRowResponse 404 (RowMessage "Asset not found.")), s') /\
   list_asset_links (Some aid) s' = (Ok (mkRowResponse 404 (RowMessage "Asset not found.")), s')) /\
  (let s' := snd (delete_vulnerability (Some vid) s) in
   get_vulnerability (Some vid) s'
   = (Ok (mkRowResponse 404 (RowMessage "Vulnerability not found.")), s')).
Proof.
  intros Hra Hrv. split; cbv zeta.
  - rewrite delete_asset_state.
    assert (Hf : find_asset aid (snd (delete_assets aid s)) = None).
    { unfold find_asset, delete_assets. cbn [snd assets]. apply find_none_intro.
      intros a Ha. apply filter_In in Ha as [_ Ha]. now apply negb_true_iff. }
    unfold get_asset, list_asset_links, try_catch, bind, read, int4_guard, row_reply, ret.
    rewrite Hf. cbn [forallb]. rewrite Hra. split; reflexivity.
  - rewrite delete_vulnerability_state.
    assert (Hf : find_vuln vid (snd (delete_vulnerabilities vid s)) = None).
    { unfold find_vuln, delete_vulnerabilities. cbn [snd vulnerabilities]. apply find_none_intro.
      intros v Hv. apply filter_In in Hv as [_ Hv]. now apply negb_true_iff. }
    unfold get_vulnerability, try_catch, bind, read, int4_guard, row_reply, ret.
    rewrite Hf. cbn [forallb]. rewrite Hrv. reflexivity.
Qed.

(** An asset id outside the int4 range, on a store with no row of that
    id (as every store is, the id columns being int4): reading the asset,
    deleting it and deleting a link under it answer 500, because Postgres
    rejects the parameter, and change nothing. *)
Theorem out_of_range_asset_id_fails (aid jid : Z) (s : DB) :
  int4_ok aid = false -> find_asset aid s = None ->
  (forall l, In l (assets_vulnerabilities s) -> l_assetId l <> aid) ->
  get_asset (Some aid) s
  = (Ok (mkRowResponse 500 (RowMessage "Internal server error while fetching asset.")), s) /\
  delete_asset (Some aid) s
  = (Ok (mkResponse 500 (Message "Internal server error while deleting asset.")), s) /\
  delete_link (Some aid) (Some jid) s
  = (Ok (mkResponse 500 (Message "Internal server error.")), s).
Proof.
  intros Hr Hf Hl. split; [|split].
  - unfold get_asset, try_catch, bind, read, int4_guard.
    rewrite Hf. cbn [forallb]. now rewrite Hr.
  - unfold delete_asset, try_catch, bind, int4_guard.
    rewrite delete_assets_nomatch; [cbn [forallb]; now rewrite Hr|].
    intros a Ha. exact (find_none _ _ Hf a Ha).
  - assert (Hw : forall x, In x (assets_vulnerabilities s) -> is_scoped jid aid x = false).
    { intros x Hx. unfold is_scoped. destruct (l_assetId x =? aid) eqn:E.
      - apply Z.eqb_eq in E. exfalso. exact (Hl x Hx E).
      - apply andb_false_r. }
    unfold delete_link, try_catch, bind, delete_links, int4_guard.
    rewrite (filter_all_false _ _ Hw), (filter_negb_all_false _ _ Hw), db_eta.
    cbn [map forallb]. rewrite Hr, andb_false_r. reflexivity.
Qed.

(** * The further properties at the sample stores *)

Lemma statistics_totals_witness :
  NoDup (map v_id (vulnerabilities sample_open_db)) /\
  exists st,
    statistics sample_open_db = (Ok (mkResponse 200 (StatisticsBody st)), sample_open_db) /\
    totalAssets st = 2 /\ totalVulnerabilities st = 2 /\
    totalOpenVulnerabilityInstances st = 2 /\
    zsum (map snd (openVulnerabilitiesBySeverity st)) = totalOpenVulnerabilityInstances st.
Proof.
  assert (Hnd : NoDup (map v_id (vulnerabilities sample_open_db))) by (simpl; nodup_Z).
  split; [exact Hnd|].
  destruct (statistics_totals sample_open_db Hnd) as [st H].
  - intros l Hl. vm_compute in Hl. destruct Hl as [<-|[<-|[]]]; discriminate.
  - exists st. exact H.
Defined.

Lemma scan_twice_links_nothing_new_witness :
  scan_asset alone 10 (Some 2) sample_db
  = (Ok (mkResponse 200 (ScanResult "Simulated scan completed." 2 2 0 2)),
     snd (scan_asset alone 10 (Some 2) sample_db)) /\
  exists s'',
    scan_asset alone 20 (Some 2) (snd (scan_asset alone 10 (Some 2) sample_db))
    = (Ok (mkResponse 200 (ScanResult "Simulated scan completed." 2 0 2 2)), s'').
Proof.
  assert (H : scan_asset alone 10 (Some 2) sample_db
              = (Ok (mkResponse 200 (ScanResult "Simulated scan completed." 2 2 0 2)),
                 snd (scan_asset alone 10 (Some 2) sample_db))) by (vm_compute; reflexivity).
  split; [exact H|].
  exact (scan_twice_links_nothing_new 10 20 2 sample_db _ _ 2 0 2 H).
Defined.

Lemma scan_keeps_untouched_links_witness :
  find_asset 1 sample_db = Some sample_server /\
  exists r s',
    scan_asset alone 10 (Some 1) sample_db = (Ok r, s') /\ code r = 200 /\
    (forall x, In x (assets_vulnerabilities sample_db) ->
       In (if (l_assetId x =? 1) &&
              existsb (Z.eqb (l_vulnerabilityId x)) (map v_id (scan_candidates sample_db))
           then refresh 10 x else x) (assets_vulnerabilities s')) /\
    (forall y, In y (assets_vulnerabilities s') ->
       In y (assets_vulnerabilities sample_db) \/
       (l_assetId y = 1 /\ In (l_vulnerabilityId y) (map v_id (scan_candidates sample_db)))).
Proof.
  split; [reflexivity|].
  apply (scan_keeps_untouched_links 10 1 sample_server sample_db).
  - simpl. nodup_Z.
  - intros x [<-|[]]. simpl. lia.
  - intros x y [<-|[]] [<-|[]] _ _. reflexivity.
  - simpl. nodup_Z.
  - reflexivity.
Defined.

Lemma create_link_inserts_witness :
  find_link_pair 2 1 sample_db = None /\
  exists l,
    create_link (fun t => t) 10 (Some 2) (mkCreateLinkBody (Some 1) None None None None) sample_db
    = (Ok (mkResponse 201 (LinkRow l)),
       mkDB (assets sample_db) (vulnerabilities sample_db)
            (assets_vulnerabilities sample_db ++ [l]) (link_serial sample_db + 1)) /\
    l_id l = link_serial sample_db /\ l_assetId l = 2 /\ l_vulnerabilityId l = 1 /\
    status_to_string (l_status l)
      = create_status_text (mkCreateLinkBody (Some 1) None None None None) /\
    l_lastSeenAt l = 10 /\ l_details l = None /\ l_remediationNotes l = None /\
    l_updatedAt l = 10.
Proof.
  split; [reflexivity|].
  exact (create_link_inserts 10 2 1 (mkCreateLinkBody (Some 1) None None None None) sample_db
           eq_refl eq_refl eq_refl ltac:(discriminate) ltac:(discriminate) eq_refl).
Defined.

Lemma create_link_twice_conflicts_witness :
  find_link_pair 2 1 sample_db = None /\
  exists l s',
    create_link (fun t => t) 10 (Some 2) (mkCreateLinkBody (Some 1) None None None None) sample_db
    = (Ok (mkResponse 201 (LinkRow l)), s') /\
    forall (interfere : DB -> DB) (now' : Timestamp) (b' : CreateLinkBody),
      b_vulnerabilityId b' = Some 1 -> create_status_ok b' = true ->
      create_link interfere now' (Some 2) b' s'
      = (Ok (mkResponse 409 (ConflictBody "This vulnerability is already linked to this asset."
                                          (Some l))), s').
Proof.
  split; [reflexivity|].
  exact (create_link_twice_conflicts 10 2 1 (mkCreateLinkBody (Some 1) None None None None)
           sample_db eq_refl eq_refl eq_refl ltac:(discriminate) ltac:(discriminate) eq_refl).
Defined.

Lemma create_then_delete_restores_witness :
  find_link_pair 2 1 sample_db = None /\
  exists l s',
    create_link (fun t => t) 10 (Some 2) (mkCreateLinkBody (Some 1) None None None None) sample_db
    = (Ok (mkResponse 201 (LinkRow l)), s') /\
    delete_link (Some 2) (Some (l_id l)) s'
    = (Ok (mkResponse 200 (Unlinked "Vulnerability unlinked from asset successfully." (l_id l))),
       mkDB (assets sample_db) (vulnerabilities sample_db) (assets_vulnerabilities sample_db)
            (link_serial sample_db + 1)).
Proof.
  split; [reflexivity|].
  apply (create_then_delete_restores 10 2 1 (mkCreateLinkBody (Some 1) None None None None)
           sample_db eq_refl eq_refl eq_refl ltac:(discriminate) ltac:(discriminate) eq_refl).
  intros x [<-|[]]. simpl. lia.
Defined.

Lemma update_link_patches_witness :
  update_body_acceptable (mkUpdateLinkBody (Some "ignored"%string) None (Some (Some "wontfix"%string)) None)
  = true /\
  exists l',
    update_link 10 (Some 1) (Some (l_id sample_link))
      (mkUpdateLinkBody (Some "ignored"%string) None (Some (Some "wontfix"%string)) None) sample_db
    = (Ok (mkResponse 200 (LinkRow l')),
       mkDB (assets sample_db) (vulnerabilities sample_db)
            (map (fun x => if l_id x =? l_id sample_link then l' else x)
                 (assets_vulnerabilities sample_db))
            (link_serial sample_db)) /\
    l_id l' = 1 /\ l_assetId l' = 1 /\ l_vulnerabilityId l' = 1 /\
    status_to_string (l_status l') = "ignored"%string /\ l_lastSeenAt l' = 5 /\
    l_details l' = None /\ l_remediationNotes l' = Some "wontfix"%string /\ l_updatedAt l' = 10.
Proof.
  split; [reflexivity|].
  exact (update_link_patches 10 1 sample_link
           (mkUpdateLinkBody (Some "ignored"%string) None (Some (Some "wontfix"%string)) None)
           sample_db ltac:(simpl; nodup_Z) (or_introl eq_refl) eq_refl eq_refl).
Defined.

Lemma update_link_store_rejects_witness :
  includes vulnerabilityStatusEnum_enumValues "" = false /\
  update_link 10 (Some 1) (Some 1) (mkUpdateLinkBody (Some ""%string) None (Some None) None) sample_db
  = (Ok (mkResponse 500 (Message "Internal server error.")), sample_db).
Proof.
  split; [reflexivity|].
  apply update_link_store_rejects. left. reflexivity.
Defined.

Lemma delete_link_removes_witness :
  In sample_link (assets_vulnerabilities sample_db) /\
  delete_link (Some 1) (Some (l_id sample_link)) sample_db
  = (Ok (mkResponse 200 (Unlinked "Vulnerability unlinked from asset successfully."
                                  (l_id sample_link))),
     mkDB (assets sample_db) (vulnerabilities sample_db)
          (filter (fun x => negb (l_id x =? l_id sample_link)) (assets_vulnerabilities sample_db))
          (link_serial sample_db)).
Proof.
  split; [simpl; now left|].
  exact (delete_link_removes 1 sample_link sample_db ltac:(simpl; nodup_Z) (or_introl eq_refl)
           eq_refl).
Defined.

Lemma list_asset_links_rows_witness :
  find_asset 1 sample_open_db <> None /\
  exists rows,
    list_asset_links (Some 1) sample_open_db
    = (Ok (mkRowResponse 200 (LinkedVulnerabilities rows)), sample_open_db) /\
    Permutation rows
      (map (fun l => linked_item l (find_vuln (l_vulnerabilityId l) sample_open_db))
           (filter (fun l => l_assetId l =? 1) (assets_vulnerabilities sample_open_db))) /\
    StronglySorted (desc_by li_lastSeenAt) rows.
Proof.
  split; [discriminate|].
  exact (list_asset_links_rows 1 sample_open_db ltac:(discriminate) ltac:(simpl; nodup_Z)).
Defined.

Lemma update_asset_patches_witness :
  find_asset 1 sample_db = Some sample_server /\
  exists a',
    update_asset 10 (Some 1)
      (mkUpdateAssetBody (Some (Some "srv-02"%string)) (Some (Some "workstation"%string)) None None
                         None (Some None)) sample_db
    = (Ok (mkRowResponse 200 (AssetRow a')),
       mkDB (map (fun x => if a_id x =? 1 then a' else x) (assets sample_db))
            (vulnerabilities sample_db) (assets_vulnerabilities sample_db)
            (link_serial sample_db)) /\
    a_id a' = 1 /\ a_name a' = "srv-02"%string /\
    asset_type_to_string (a_type a') = "workstation"%string /\
    a_ipAddress a' = "10.0.0.1"%string /\ a_macAddress a' = None /\ a_operatingSystem a' = None /\
    a_description a' = None /\ a_lastScannedAt a' = None /\ a_createdAt a' = 0 /\
    a_updatedAt a' = 10.
Proof.
  split; [reflexivity|].
  exact (update_asset_patches 10 1 sample_server
           (mkUpdateAssetBody (Some (Some "srv-02"%string)) (Some (Some "workstation"%string)) None
                              None None (Some None))
           sample_db ltac:(simpl; nodup_Z) eq_refl ltac:(discriminate)
           (or_intror (ex_intro _ Workstation eq_refl)) ltac:(discriminate) ltac:(discriminate)).
Defined.

Lemma update_asset_then_get_witness :
  update_asset 10 (Some 1) (mkUpdateAssetBody (Some (Some "srv-02"%string)) None None None None None)
               sample_db
  = (Ok (mkRowResponse 200 (AssetRow (mkAsset 1 "srv-02" Server "10.0.0.1" None None None None 0 10))),
     snd (update_asset 10 (Some 1)
            (mkUpdateAssetBody (Some (Some "srv-02"%string)) None None None None None) sample_db)) /\
  get_asset (Some 1)
    (snd (update_asset 10 (Some 1)
            (mkUpdateAssetBody (Some (Some "srv-02"%string)) None None None None None) sample_db))
  = (Ok (mkRowResponse 200 (AssetRow (mkAsset 1 "srv-02" Server "10.0.0.1" None None None None 0 10))),
     snd (update_asset 10 (Some 1)
            (mkUpdateAssetBody (Some (Some "srv-02"%string)) None None None None None) sample_db)).
Proof.
  assert (H : update_asset 10 (Some 1)
                (mkUpdateAssetBody (Some (Some "srv-02"%string)) None None None None None) sample_db
              = (Ok (mkRowResponse 200
                       (AssetRow (mkAsset 1 "srv-02" Server "10.0.0.1" None None None None 0 10))),
                 snd (update_asset 10 (Some 1)
                        (mkUpdateAssetBody (Some (Some "srv-02"%string)) None None None None None)
                        sample_db))) by (vm_compute; reflexivity).
  split; [exact H|]. exact (update_asset_then_get _ _ _ _ _ _ H).
Defined.

Lemma scan_touch_stamps_witness :
  find_asset 2 sample_db = Some sample_workstation /\
  scan_touch 10 (Some 2) sample_db
  = (Ok (mkRowResponse 200 (AssetRow (mkAsset 2 "ws-01" Workstation "10.0.0.2" None None None
                                              (Some 10) 0 10))),
     mkDB [sample_server; mkAsset 2 "ws-01" Workstation "10.0.0.2" None None None (Some 10) 0 10]
          (vulnerabilities sample_db) (assets_vulnerabilities sample_db) (link_serial sample_db)).
Proof.
  split; [reflexivity|].
  exact (scan_touch_stamps 10 2 sample_workstation sample_db ltac:(simpl; nodup_Z) eq_refl).
Defined.

Lemma missing_asset_not_found_witness :
  find_asset 3 sample_db = None /\ int4_ok 3 = true /\
  get_asset (Some 3) sample_db = (Ok (mkRowResponse 404 (RowMessage "Asset not found.")), sample_db) /\
  list_asset_links (Some 3) sample_db
  = (Ok (mkRowResponse 404 (RowMessage "Asset not found.")), sample_db) /\
  scan_touch 10 (Some 3) sample_db
  = (Ok (mkRowResponse 404 (RowMessage "Asset not found.")), sample_db) /\
  delete_asset (Some 3) sample_db = (Ok (mkResponse 404 (Message "Asset not found.")), sample_db).
Proof.
  split; [reflexivity|]. split; [reflexivity|].
  exact (missing_asset_not_found 10 3 sample_db eq_refl eq_refl).
Defined.

Lemma delete_link_twice_witness :
  int4_ok 1 = true /\
  delete_link (Some 1) (Some 1) (snd (delete_link (Some 1) (Some 1) sample_db))
  = (Ok (mkResponse 404 (Message "Asset-vulnerability link not found.")),
     snd (delete_link (Some 1) (Some 1) sample_db)).
Proof. split; [reflexivity|]. exact (delete_link_twice 1 1 sample_db eq_refl eq_refl). Defined.

Lemma update_asset_store_errors_witness :
  find_asset 3 sample_db = None /\ int4_ok 3 = true /\
  update_asset 10 (Some 3) (mkUpdateAssetBody (Some (Some "db-01"%string)) None None None None None)
    sample_db
  = (Ok (mkRowResponse 404 (RowMessage "Asset not found or no changes made.")), sample_db).
Proof.
  split; [reflexivity|]. split; [reflexivity|].
  exact (proj2 (proj2 (update_asset_store_errors 10 3
           (mkUpdateAssetBody (Some (Some "db-01"%string)) None None None None None) sample_db))
           eq_refl eq_refl ltac:(discriminate) ltac:(intros x Hx; discriminate Hx)).
Defined.

Lemma delete_parent_twice_witness :
  int4_ok 1 = true /\
  delete_asset (Some 1) (snd (delete_asset (Some 1) sample_db))
  = (Ok (mkResponse 404 (Message "Asset not found.")), snd (delete_asset (Some 1) sample_db)) /\
  delete_vulnerability (Some 1) (snd (delete_vulnerability (Some 1) sample_db))
  = (Ok (mkResponse 404 (Message "Vulnerability not found.")),
     snd (delete_vulnerability (Some 1) sample_db)).
Proof. split; [reflexivity|]. exact (delete_parent_twice 1 1 sample_db eq_refl eq_refl). Defined.

Lemma delete_then_read_not_found_witness :
  int4_ok 1 = true /\
  get_asset (Some 1) (snd (delete_asset (Some 1) sample_db))
  = (Ok (mkRowResponse 404 (RowMessage "Asset not found.")), snd (delete_asset (Some 1) sample_db)) /\
  list_asset_links (Some 1) (snd (delete_asset (Some 1) sample_db))
  = (Ok (mkRowResponse 404 (RowMessage "Asset not found.")), snd (delete_asset (Some 1) sample_db)) /\
  get_vulnerability (Some 1) (snd (delete_vulnerability (Some 1) sample_db))
  = (Ok (mkRowResponse 404 (RowMessage "Vulnerability not found.")),
     snd (delete_vulnerability (Some 1) sample_db)).
Proof.
  split; [reflexivity|].
  destruct (delete_then_read_not_found 1 1 sample_db eq_refl eq_refl) as [[H1 H2] H3].
  split; [exact H1|]. split; [exact H2|exact H3].
Defined.

Lemma out_of_range_asset_id_fails_witness :
  int4_ok 2147483648 = false /\ find_asset 2147483648 sample_db = None /\
  get_asset (Some 2147483648) sample_db
  = (Ok (mkRowResponse 500 (RowMessage "Internal server error while fetching asset.")), sample_db) /\
  delete_asset (Some 2147483648) sample_db
  = (Ok (mkResponse 500 (Message "Internal server error while deleting asset.")), sample_db) /\
  delete_link (Some 2147483648) (Some 1) sample_db
  = (Ok (mkResponse 500 (Message "Internal server error.")), sample_db).
Proof.
  split; [reflexivity|]. split; [reflexivity|].
  exact (out_of_range_asset_id_fails 2147483648 1 sample_db eq_refl eq_refl
           ltac:(intros l [<-|[]]; simpl; lia)).
Defined.
